(** * Alert lifecycle of the safety application

    A shallow embedding of [safety_app/models.py], [safety_app/services.py],
    the websocket consumers of [safety_app/consumers.py] and the alert views
    of [safety_app/views.py], with the properties of the alert state machine,
    the dispatch engine, the geofence scan and the monitor authorisation.

    The database is an explicit record of tables.  Code that reads or writes
    it runs in a state-and-exception monad: a Python exception leaves the
    rows written before it in place (Django runs in autocommit mode). *)

From Stdlib Require Import ZArith QArith Qabs Lqa String Ascii Bool Sorted.
From stdpp Require Import base option list gmap strings pretty.

Local Open Scope string_scope.
Local Open Scope Z_scope.

(** ** Python values received from JSON *)

(** What [json.loads] yields for a scalar field of a message; [PyNone] is
    also what [dict.get] returns for an absent key.  A finite float is the
    rational it denotes. *)
Inductive pyval :=
| PyNone
| PyBool (b : bool)
| PyInt (z : Z)
| PyFloat (q : Q)
| PyStr (s : string).

Definition string_is_empty (s : string) : bool :=
  match s with EmptyString => true | String _ _ => false end.

(** Python truth value testing: [None], [False], a zero number and the
    empty string are false. *)
Definition truthy (v : pyval) : bool :=
  match v with
  | PyNone => false
  | PyBool b => b
  | PyInt z => negb (z =? 0)
  | PyFloat q => negb (Qnum q =? 0)
  | PyStr s => negb (string_is_empty s)
  end.

(** [v == 0] on Python numbers ([False == 0] holds as well, [bool] being a
    subclass of [int]). *)
Definition numerically_zero (v : pyval) : bool :=
  match v with
  | PyBool b => negb b
  | PyInt z => z =? 0
  | PyFloat q => Qnum q =? 0
  | PyNone | PyStr _ => false
  end.

(** [all([...])] over a list of values. *)
Definition py_all (vs : list pyval) : bool := forallb truthy vs.

(** ** models.py *)

Inductive Status :=
| TRIGGERED | PENDING_CANCEL | CANCELLED | DISPATCHED | RESOLVED | TIMEOUT.

Inductive Channel := SMS | EMAIL | PUSH.

Inductive DispatchStatus := PENDING | SENT | FAILED | SIMULATED.

Inductive Action :=
| ALERT_TRIGGERED | ALERT_CANCELLED | ALERT_DISPATCHED | ALERT_RESOLVED
| LOCATION_UPDATED | CONTACT_ADDED | CONTACT_MODIFIED
| SAFE_ZONE_CREATED | SAFE_ZONE_MODIFIED | USER_LOGIN | USER_LOGOUT.

#[global] Instance Status_eq_dec : EqDecision Status.
Proof. solve_decision. Defined.

#[global] Instance Channel_eq_dec : EqDecision Channel.
Proof. solve_decision. Defined.

(** [status in ['TRIGGERED', 'PENDING_CANCEL', 'DISPATCHED']] *)
Definition non_terminal (s : Status) : bool :=
  match s with
  | TRIGGERED | PENDING_CANCEL | DISPATCHED => true
  | CANCELLED | RESOLVED | TIMEOUT => false
  end.

Definition terminal (s : Status) : bool := negb (non_terminal s).

(** Primary keys.  A user, a contact and a zone are referred to by key, the
    way a foreign key column does. *)
Abbreviation user_id := N (only parsing).
Abbreviation uuid := N (only parsing).

(** Timestamps are counted in microseconds, the resolution of [datetime]. *)
Abbreviation datetime := Z (only parsing).

Record User := {
  id : user_id;
  username : string;
  first_name : string;
  last_name : string;
  email : string;
}.

Record UserProfile := {
  safe_word : option string;
  is_active_alert : bool;
}.

Record EmergencyContact := {
  contact_id : N;
  contact_user : user_id;
  contact_name : string;
  contact_email : string;
  priority : Z;
  contact_is_active : bool;
}.

Record SafeZone := {
  zone_id : N;
  zone_user : user_id;
  zone_name : string;
  zone_latitude : Q;
  zone_longitude : Q;
  radius_meters : Z;
  zone_is_active : bool;
}.

Record Alert := {
  alert_id : uuid;
  user : user_id;
  status : Status;
  triggered_at : datetime;
  trigger_method : string;
  initial_latitude : option Q;
  initial_longitude : option Q;
  cancellation_timer_started : option datetime;
  cancelled_at : option datetime;
  cancellation_reason : option string;
  dispatched_at : option datetime;
  contacts_notified : Z;
  resolved_at : option datetime;
  resolution_notes : option string;
  safe_word_attempted : bool;
  safe_word_success : bool;
  user_agent : option string;
  ip_address : option string;
  updated_at : datetime;
}.

Record LocationTrack := {
  track_id : N;
  track_alert : uuid;
  latitude : Q;
  longitude : Q;
  accuracy : option Q;
  altitude : option Q;
  speed : option Q;
  heading : option Q;
  timestamp : datetime;
  is_in_safe_zone : bool;
  nearest_safe_zone : option N;
}.

(** The body of a notification: the template of its channel with the
    values interpolated into it. *)
Inductive MapsUrl :=
| GoogleMaps (lat lon : Q)
| LocationNotAvailable.

Record Message := {
  msg_channel : Channel;
  msg_contact_name : string;
  msg_user_name : string;
  msg_first_name : string;
  msg_trigger_time : datetime;
  msg_trigger_method : string;
  msg_alert_id : uuid;
  msg_location : MapsUrl;
  msg_monitor_alert : uuid;
}.

Record DispatchLog := {
  log_alert : uuid;
  log_contact : EmergencyContact;
  log_channel : Channel;
  log_status : DispatchStatus;
  message_content : Message;
  sent_at : option datetime;
  log_created_at : datetime;
}.

(** An audit row: who, which alert, what happened, when.  The client
    address, the user agent and the JSON metadata of the row repeat arguments
    of the call and are left out. *)
Record AuditLog := {
  audit_user : user_id;
  audit_alert : option uuid;
  action : Action;
  description : string;
  audit_timestamp : datetime;
}.

(** The tables.  [alerts] and [profiles] are keyed by their primary key and
    by the user of the one-to-one relation; the other tables keep their rows
    in storage order, the order a query without tie-break returns them in. *)
Record DB := {
  users : gmap N User;
  profiles : gmap N UserProfile;
  emergency_contacts : list EmergencyContact;
  safe_zones : list SafeZone;
  alerts : gmap N Alert;
  location_tracks : list LocationTrack;
  dispatch_logs : list DispatchLog;
  audit_logs : list AuditLog;
}.

(** [django.conf.settings]: the one attribute the services read; [None]
    when the project does not define it. *)
Record Settings := {
  ALERT_CANCELLATION_TIMEOUT : option Z;
}.

(** What the code reads from its surroundings rather than from its
    arguments: the clock behind [timezone.now()] and the settings module. *)
Record Ambient := {
  clock : datetime;
  settings : Settings;
}.

(** ** State and exceptions *)

Inductive exn :=
| DoesNotExist
| RelatedObjectDoesNotExist
| IntegrityError
| InvalidOperation
| ValueError
| AttributeError
| JSONDecodeError.

Inductive outcome (A : Type) :=
| Return (a : A)
| Raise (e : exn).
Arguments Return {A} a.
Arguments Raise {A} e.

Definition M (A : Type) : Type := Ambient -> DB -> outcome A * DB.

Definition ret {A} (a : A) : M A := fun _ db => (Return a, db).

Definition raise {A} (e : exn) : M A := fun _ db => (Raise e, db).

Definition bind {A B} (m : M A) (k : A -> M B) : M B :=
  fun env db =>
    match m env db with
    | (Return a, db') => k a env db'
    | (Raise e, db') => (Raise e, db')
    end.

(** [try: m  except Exception: h] *)
Definition try_except {A} (m : M A) (h : exn -> M A) : M A :=
  fun env db =>
    match m env db with
    | (Return a, db') => (Return a, db')
    | (Raise e, db') => h e env db'
    end.

Definition read_db : M DB := fun _ db => (Return db, db).

Definition write_db (db : DB) : M unit := fun _ _ => (Return tt, db).

Definition timezone_now : M datetime := fun env db => (Return (clock env), db).

Definition get_settings : M Settings := fun env db => (Return (settings env), db).

#[global] Instance M_ret : MRet M := @ret.

#[global] Instance M_bind : MBind M := fun A B k m => bind m k.

(** ** Attribute assignment

    [set_f v a] is the object [a] after [a.f = v]. *)

Definition set_status (v : Status) (a : Alert) : Alert :=
  {| alert_id := alert_id a; user := user a; status := v;
     triggered_at := triggered_at a; trigger_method := trigger_method a;
     initial_latitude := initial_latitude a;
     initial_longitude := initial_longitude a;
     cancellation_timer_started := cancellation_timer_started a;
     cancelled_at := cancelled_at a;
     cancellation_reason := cancellation_reason a;
     dispatched_at := dispatched_at a;
     contacts_notified := contacts_notified a; resolved_at := resolved_at a;
     resolution_notes := resolution_notes a;
     safe_word_attempted := safe_word_attempted a;
     safe_word_success := safe_word_success a; user_agent := user_agent a;
     ip_address := ip_address a; updated_at := updated_at a |}.

Definition set_cancelled_at (v : option datetime) (a : Alert) : Alert :=
  {| alert_id := alert_id a; user := user a; status := status a;
     triggered_at := triggered_at a; trigger_method := trigger_method a;
     initial_latitude := initial_latitude a;
     initial_longitude := initial_longitude a;
     cancellation_timer_started := cancellation_timer_started a;
     cancelled_at := v; cancellation_reason := cancellation_reason a;
     dispatched_at := dispatched_at a;
     contacts_notified := contacts_notified a; resolved_at := resolved_at a;
     resolution_notes := resolution_notes a;
     safe_word_attempted := safe_word_attempted a;
     safe_word_success := safe_word_success a; user_agent := user_agent a;
     ip_address := ip_address a; updated_at := updated_at a |}.

Definition set_cancellation_reason (v : option string) (a : Alert) : Alert :=
  {| alert_id := alert_id a; user := user a; status := status a;
     triggered_at := triggered_at a; trigger_method := trigger_method a;
     initial_latitude := initial_latitude a;
     initial_longitude := initial_longitude a;
     cancellation_timer_started := cancellation_timer_started a;
     cancelled_at := cancelled_at a; cancellation_reason := v;
     dispatched_at := dispatched_at a;
     contacts_notified := contacts_notified a; resolved_at := resolved_at a;
     resolution_notes := resolution_notes a;
     safe_word_attempted := safe_word_attempted a;
     safe_word_success := safe_word_success a; user_agent := user_agent a;
     ip_address := ip_address a; updated_at := updated_at a |}.

Definition set_dispatched_at (v : option datetime) (a : Alert) : Alert :=
  {| alert_id := alert_id a; user := user a; status := status a;
     triggered_at := triggered_at a; trigger_method := trigger_method a;
     initial_latitude := initial_latitude a;
     initial_longitude := initial_longitude a;
     cancellation_timer_started := cancellation_timer_started a;
     cancelled_at := cancelled_at a;
     cancellation_reason := cancellation_reason a; dispatched_at := v;
     contacts_notified := contacts_notified a; resolved_at := resolved_at a;
     resolution_notes := resolution_notes a;
     safe_word_attempted := safe_word_attempted a;
     safe_word_success := safe_word_success a; user_agent := user_agent a;
     ip_address := ip_address a; updated_at := updated_at a |}.

Definition set_contacts_notified (v : Z) (a : Alert) : Alert :=
  {| alert_id := alert_id a; user := user a; status := status a;
     triggered_at := triggered_at a; trigger_method := trigger_method a;
     initial_latitude := initial_latitude a;
     initial_longitude := initial_longitude a;
     cancellation_timer_started := cancellation_timer_started a;
     cancelled_at := cancelled_at a;
     cancellation_reason := cancellation_reason a;
     dispatched_at := dispatched_at a; contacts_notified := v;
     resolved_at := resolved_at a; resolution_notes := resolution_notes a;
     safe_word_attempted := safe_word_attempted a;
     safe_word_success := safe_word_success a; user_agent := user_agent a;
     ip_address := ip_address a; updated_at := updated_at a |}.

Definition set_resolved_at (v : option datetime) (a : Alert) : Alert :=
  {| alert_id := alert_id a; user := user a; status := status a;
     triggered_at := triggered_at a; trigger_method := trigger_method a;
     initial_latitude := initial_latitude a;
     initial_longitude := initial_longitude a;
     cancellation_timer_started := cancellation_timer_started a;
     cancelled_at := cancelled_at a;
     cancellation_reason := cancellation_reason a;
     dispatched_at := dispatched_at a;
     contacts_notified := contacts_notified a; resolved_at := v;
     resolution_notes := resolution_notes a;
     safe_word_attempted := safe_word_attempted a;
     safe_word_success := safe_word_success a; user_agent := user_agent a;
     ip_address := ip_address a; updated_at := updated_at a |}.

Definition set_resolution_notes (v : option string) (a : Alert) : Alert :=
  {| alert_id := alert_id a; user := user a; status := status a;
     triggered_at := triggered_at a; trigger_method := trigger_method a;
     initial_latitude := initial_latitude a;
     initial_longitude := initial_longitude a;
     cancellation_timer_started := cancellation_timer_started a;
     cancelled_at := cancelled_at a;
     cancellation_reason := cancellation_reason a;
     dispatched_at := dispatched_at a;
     contacts_notified := contacts_notified a; resolved_at := resolved_at a;
     resolution_notes := v; safe_word_attempted := safe_word_attempted a;
     safe_word_success := safe_word_success a; user_agent := user_agent a;
     ip_address := ip_address a; updated_at := updated_at a |}.

Definition set_safe_word_attempted (v : bool) (a : Alert) : Alert :=
  {| alert_id := alert_id a; user := user a; status := status a;
     triggered_at := triggered_at a; trigger_method := trigger_method a;
     initial_latitude := initial_latitude a;
     initial_longitude := initial_longitude a;
     cancellation_timer_started := cancellation_timer_started a;
     cancelled_at := cancelled_at a;
     cancellation_reason := cancellation_reason a;
     dispatched_at := dispatched_at a;
     contacts_notified := contacts_notified a; resolved_at := resolved_at a;
     resolution_notes := resolution_notes a; safe_word_attempted := v;
     safe_word_success := safe_word_success a; user_agent := user_agent a;
     ip_address := ip_address a; updated_at := updated_at a |}.

Definition set_safe_word_success (v : bool) (a : Alert) : Alert :=
  {| alert_id := alert_id a; user := user a; status := status a;
     triggered_at := triggered_at a; trigger_method := trigger_method a;
     initial_latitude := initial_latitude a;
     initial_longitude := initial_longitude a;
     cancellation_timer_started := cancellation_timer_started a;
     cancelled_at := cancelled_at a;
     cancellation_reason := cancellation_reason a;
     dispatched_at := dispatched_at a;
     contacts_notified := contacts_notified a; resolved_at := resolved_at a;
     resolution_notes := resolution_notes a;
     safe_word_attempted := safe_word_attempted a; safe_word_success := v;
     user_agent := user_agent a; ip_address := ip_address a;
     updated_at := updated_at a |}.

Definition set_updated_at (v : datetime) (a : Alert) : Alert :=
  {| alert_id := alert_id a; user := user a; status := status a;
     triggered_at := triggered_at a; trigger_method := trigger_method a;
     initial_latitude := initial_latitude a;
     initial_longitude := initial_longitude a;
     cancellation_timer_started := cancellation_timer_started a;
     cancelled_at := cancelled_at a;
     cancellation_reason := cancellation_reason a;
     dispatched_at := dispatched_at a;
     contacts_notified := contacts_notified a; resolved_at := resolved_at a;
     resolution_notes := resolution_notes a;
     safe_word_attempted := safe_word_attempted a;
     safe_word_success := safe_word_success a; user_agent := user_agent a;
     ip_address := ip_address a; updated_at := v |}.

(** The database with one table replaced. *)

Definition with_profiles (v : gmap N UserProfile) (db : DB) : DB :=
  {| users := users db; profiles := v;
     emergency_contacts := emergency_contacts db;
     safe_zones := safe_zones db; alerts := alerts db;
     location_tracks := location_tracks db;
     dispatch_logs := dispatch_logs db; audit_logs := audit_logs db |}.

Definition with_alerts (v : gmap N Alert) (db : DB) : DB :=
  {| users := users db; profiles := profiles db;
     emergency_contacts := emergency_contacts db;
     safe_zones := safe_zones db; alerts := v;
     location_tracks := location_tracks db;
     dispatch_logs := dispatch_logs db; audit_logs := audit_logs db |}.

Definition with_location_tracks (v : list LocationTrack) (db : DB) : DB :=
  {| users := users db; profiles := profiles db;
     emergency_contacts := emergency_contacts db;
     safe_zones := safe_zones db; alerts := alerts db; location_tracks := v;
     dispatch_logs := dispatch_logs db; audit_logs := audit_logs db |}.

Definition with_dispatch_logs (v : list DispatchLog) (db : DB) : DB :=
  {| users := users db; profiles := profiles db;
     emergency_contacts := emergency_contacts db;
     safe_zones := safe_zones db; alerts := alerts db;
     location_tracks := location_tracks db; dispatch_logs := v;
     audit_logs := audit_logs db |}.

Definition with_audit_logs (v : list AuditLog) (db : DB) : DB :=
  {| users := users db; profiles := profiles db;
     emergency_contacts := emergency_contacts db;
     safe_zones := safe_zones db; alerts := alerts db;
     location_tracks := location_tracks db;
     dispatch_logs := dispatch_logs db; audit_logs := v |}.

Definition with_is_active_alert (v : bool) (p : UserProfile) : UserProfile :=
  {| safe_word := safe_word p; is_active_alert := v |}.

(** ** The object-relational layer *)

(** [Alert.objects.create(...)]: an insert; the primary key must be new.
    The two coordinates go into columns declared [DecimalField(max_digits=9,
    decimal_places=6)].  The insert takes a decimal of any size; it is a
    later read of the row that rounds a value of more than six decimal
    places and raises [InvalidOperation] on one of more than nine digits.
    The reads of this layer hand a row back as it is stored, which is what
    Django does for the rows called [readable] in the vocabulary below. *)
Definition Alert_objects_create (a : Alert) : M Alert :=
  db ← read_db;
  match alerts db !! alert_id a with
  | Some _ => raise IntegrityError
  | None => write_db (with_alerts (<[alert_id a := a]> (alerts db)) db);; ret a
  end.

(** [alert.save()]: every column of the row with the object's key is
    overwritten by the object's attributes; [updated_at] is [auto_now]. *)
Definition Alert_save (a : Alert) : M Alert :=
  now ← timezone_now;
  let a' := set_updated_at now a in
  db ← read_db;
  write_db (with_alerts (<[alert_id a' := a']> (alerts db)) db);;
  ret a'.


(** [Alert.objects.get(alert_id=aid, user=u)] *)
Definition Alert_objects_get_for (aid : uuid) (u : User) : M Alert :=
  db ← read_db;
  match alerts db !! aid with
  | Some a => if decide (user a = id u) then ret a else raise DoesNotExist
  | None => raise DoesNotExist
  end.

(** [alert.user]: the row the foreign key points to. *)
Definition alert_user (a : Alert) : M User :=
  db ← read_db;
  match users db !! user a with
  | Some u => ret u
  | None => raise DoesNotExist
  end.

(** [user.profile] *)
Definition user_profile (u : User) : M UserProfile :=
  db ← read_db;
  match profiles db !! id u with
  | Some p => ret p
  | None => raise RelatedObjectDoesNotExist
  end.

(** [profile.save()] for the profile of [u]. *)
Definition profile_save (u : User) (p : UserProfile) : M unit :=
  db ← read_db;
  write_db (with_profiles (<[id u := p]> (profiles db)) db).

(** [AuditLog.objects.create(...)]: rows are only ever appended. *)
Definition AuditLog_objects_create (u : User) (a : option uuid) (act : Action)
    (descr : string) : M unit :=
  now ← timezone_now;
  db ← read_db;
  write_db (with_audit_logs
    (audit_logs db ++
       [{| audit_user := id u; audit_alert := a; action := act;
           description := descr; audit_timestamp := now |}]) db).

(** [DispatchLog.objects.create(...)] *)
Definition DispatchLog_objects_create (l : DispatchLog) : M DispatchLog :=
  db ← read_db;
  write_db (with_dispatch_logs (dispatch_logs db ++ [l]) db);;
  ret l.

(** [user.emergency_contacts.filter(is_active=True)] and
    [user.safe_zones.filter(is_active=True)], rows in storage order. *)
Definition active_contacts_of (uid : user_id) (db : DB) : list EmergencyContact :=
  List.filter (fun c => bool_decide (contact_user c = uid) && contact_is_active c)
    (emergency_contacts db).

Definition active_zones_of (uid : user_id) (db : DB) : list SafeZone :=
  List.filter (fun z => bool_decide (zone_user z = uid) && zone_is_active z)
    (safe_zones db).

(** [.order_by('priority')]: the explicit call replaces the default ordering
    of [EmergencyContact.Meta], so the statement sorts on the priority column
    alone; rows of equal priority stay in the order storage yields them. *)
Fixpoint insert_by_priority (c : EmergencyContact) (l : list EmergencyContact)
    : list EmergencyContact :=
  match l with
  | [] => [c]
  | d :: r =>
      if priority c <=? priority d then c :: d :: r
      else d :: insert_by_priority c r
  end.

Definition order_by_priority (l : list EmergencyContact) : list EmergencyContact :=
  foldr insert_by_priority [] l.

(** ** services.py: AlertService *)

Module AlertService.

Section WithDecimal.

(** [Decimal(str(v))]; [None] when the constructor raises
    [InvalidOperation]. *)
Variable Decimal_str : pyval -> option Q.

(** The conditional expression [Decimal(str(v)) if v else None]. *)
Definition Decimal_if (v : pyval) : M (option Q) :=
  if truthy v then
    match Decimal_str v with
    | Some d => ret (Some d)
    | None => raise InvalidOperation
    end
  else ret None.

(** [AlertService.create_alert]; [new_id] is the value [uuid.uuid4] draws
    for the primary key. *)
Definition create_alert (new_id : uuid) (u : User) (latitude longitude : pyval)
    (trigger_method : string) (user_agent ip_address : option string) : M Alert :=
  lat ← Decimal_if latitude;
  lon ← Decimal_if longitude;
  started ← timezone_now;
  now ← timezone_now;
  alert ← Alert_objects_create
    {| alert_id := new_id; user := id u; status := TRIGGERED;
       triggered_at := now; trigger_method := trigger_method;
       initial_latitude := lat; initial_longitude := lon;
       cancellation_timer_started := Some started;
       cancelled_at := None; cancellation_reason := None;
       dispatched_at := None; contacts_notified := 0;
       resolved_at := None; resolution_notes := None;
       safe_word_attempted := false; safe_word_success := false;
       user_agent := user_agent; ip_address := ip_address;
       updated_at := now |};
  profile ← user_profile u;
  profile_save u (with_is_active_alert true profile);;
  AuditLog_objects_create u (Some (alert_id alert)) ALERT_TRIGGERED
    ("Alert triggered via " ++ trigger_method);;
  ret alert.

(** [AlertService.cancel_alert]: the result and the alert object as the
    call leaves it. *)
Definition cancel_alert (alert : Alert) (reason : string) : M (bool * Alert) :=
  if negb (non_terminal (status alert)) then ret (false, alert)
  else
    now ← timezone_now;
    alert ← Alert_save
      (set_cancellation_reason (Some reason)
         (set_cancelled_at (Some now) (set_status CANCELLED alert)));
    u ← alert_user alert;
    profile ← user_profile u;
    profile_save u (with_is_active_alert false profile);;
    AuditLog_objects_create u (Some (alert_id alert)) ALERT_CANCELLED
      ("Alert cancelled: " ++ reason);;
    ret (true, alert).

(** [AlertService.resolve_alert] *)
Definition resolve_alert (alert : Alert) (notes : string) : M (bool * Alert) :=
  now ← timezone_now;
  alert ← Alert_save
    (set_resolution_notes (Some notes)
       (set_resolved_at (Some now) (set_status RESOLVED alert)));
  u ← alert_user alert;
  profile ← user_profile u;
  profile_save u (with_is_active_alert false profile);;
  AuditLog_objects_create u (Some (alert_id alert)) ALERT_RESOLVED
    ("Alert resolved: " ++ notes);;
  ret (true, alert).

(** [elapsed.total_seconds() >= timeout_seconds] for a difference of
    [elapsed] microseconds. *)
Definition total_seconds_ge (elapsed timeout_seconds : Z) : bool :=
  timeout_seconds * 1000000 <=? elapsed.

(** [getattr(settings, 'ALERT_CANCELLATION_TIMEOUT', 120)] *)
Definition getattr_timeout (s : Settings) : Z :=
  default 120 (ALERT_CANCELLATION_TIMEOUT s).

(** [AlertService.check_timeout] *)
Definition check_timeout (alert : Alert) : M (bool * Alert) :=
  match cancellation_timer_started alert with
  | None => ret (false, alert)
  | Some started =>
      s ← get_settings;
      let timeout_seconds := getattr_timeout s in
      now ← timezone_now;
      let elapsed := now - started in
      if total_seconds_ge elapsed timeout_seconds
         && bool_decide (status alert = TRIGGERED)
      then
        alert ← Alert_save (set_status PENDING_CANCEL alert);
        ret (true, alert)
      else ret (false, alert)
  end.

(** [s.lower()].  It lowercases by the Unicode character tables, which are
    none of this code, so it stays abstract. *)
Variable str_lower : string -> string.

(** [profile.safe_word and profile.safe_word.lower() == safe_word.lower()] *)
Definition safe_word_matches (configured : option string) (attempt : string) : bool :=
  match configured with
  | None => false
  | Some w =>
      negb (string_is_empty w) && bool_decide (str_lower w = str_lower attempt)
  end.

(** [AlertService.verify_safe_word] *)
Definition verify_safe_word (alert : Alert) (attempt : string) : M (bool * Alert) :=
  u ← alert_user alert;
  profile ← user_profile u;
  let alert := set_safe_word_attempted true alert in
  if safe_word_matches (safe_word profile) attempt then
    alert ← Alert_save (set_safe_word_success true alert);
    ret (true, alert)
  else
    alert ← Alert_save alert;
    ret (false, alert).

End WithDecimal.

End AlertService.

(** ** services.py: DispatchService *)

Module DispatchService.

Section WithStrip.

(** [s.strip()].  What counts as whitespace is decided by the Unicode
    character tables, so it stays abstract. *)
Variable str_strip : string -> string.

(** [User.get_full_name]: first and last name joined by a space,
    stripped. *)
Definition get_full_name (u : User) : string :=
  str_strip (first_name u ++ " " ++ last_name u).

(** [user.get_full_name() or user.username] *)
Definition display_name (u : User) : string :=
  let n := get_full_name u in
  if string_is_empty n then username u else n.

(** Truth value of a [Decimal]. *)
Definition decimal_truthy (d : Q) : bool := negb (Qnum d =? 0).

Definition _generate_maps_url (latitude longitude : option Q) : MapsUrl :=
  match latitude, longitude with
  | Some la, Some lo =>
      if decimal_truthy la && decimal_truthy lo then GoogleMaps la lo
      else LocationNotAvailable
  | _, _ => LocationNotAvailable
  end.

Definition _generate_monitor_url (alert : Alert) : uuid := alert_id alert.

(** The values the template of channel [ch] is filled with. *)
Definition compose_message (ch : Channel) (alert : Alert) (u : User)
    (contact : EmergencyContact) : Message :=
  {| msg_channel := ch;
     msg_contact_name := contact_name contact;
     msg_user_name := display_name u;
     msg_first_name := first_name u;
     msg_trigger_time := triggered_at alert;
     msg_trigger_method := trigger_method alert;
     msg_alert_id := alert_id alert;
     msg_location :=
       _generate_maps_url (initial_latitude alert) (initial_longitude alert);
     msg_monitor_alert := _generate_monitor_url alert |}.

Definition _generate_message (ch : Channel) (alert : Alert)
    (contact : EmergencyContact) : M Message :=
  u ← alert_user alert;
  ret (compose_message ch alert u contact).

Definition _generate_sms_message := _generate_message SMS.

Definition _generate_email_message := _generate_message EMAIL.

(** [DispatchService._send_sms] and [_send_email]: the transport is
    simulated, the attempt is recorded. *)
Definition _send (ch : Channel) (alert : Alert) (contact : EmergencyContact)
    : M DispatchLog :=
  message ← _generate_message ch alert contact;
  now ← timezone_now;
  DispatchLog_objects_create
    {| log_alert := alert_id alert; log_contact := contact;
       log_channel := ch; log_status := SIMULATED;
       message_content := message; sent_at := Some now;
       log_created_at := now |}.

Definition _send_sms := _send SMS.

Definition _send_email := _send EMAIL.

Record DispatchResult := {
  success : bool;
  result_message : option string;
  result_contacts_notified : Z;
  result_dispatch_logs : list (string * Channel * DispatchStatus);
}.

(** The [for contact in contacts] loop of [dispatch_alert]. *)
Fixpoint dispatch_loop (alert : Alert) (contacts : list EmergencyContact)
    (dispatch_logs : list DispatchLog) (contacts_notified : Z)
    : M (list DispatchLog * Z) :=
  match contacts with
  | [] => ret (dispatch_logs, contacts_notified)
  | contact :: rest =>
      sms_log ← _send_sms alert contact;
      email_log ← _send_email alert contact;
      dispatch_loop alert rest (dispatch_logs ++ [sms_log; email_log])
        (contacts_notified + 1)
  end.

(** [DispatchService.dispatch_alert] *)
Definition dispatch_alert (alert : Alert) : M (DispatchResult * Alert) :=
  u ← alert_user alert;
  db ← read_db;
  let contacts := order_by_priority (active_contacts_of (id u) db) in
  match contacts with
  | [] =>
      ret ({| success := false;
              result_message := Some "No active emergency contacts found";
              result_contacts_notified := 0;
              result_dispatch_logs := [] |}, alert)
  | _ :: _ =>
      '(dispatch_logs, contacts_notified) ← dispatch_loop alert contacts [] 0;
      now ← timezone_now;
      alert ← Alert_save
        (set_contacts_notified contacts_notified
           (set_dispatched_at (Some now) (set_status DISPATCHED alert)));
      AuditLog_objects_create u (Some (alert_id alert)) ALERT_DISPATCHED
        ("Alert dispatched to " ++ pretty contacts_notified ++ " contacts");;
      ret ({| success := true;
              result_message := None;
              result_contacts_notified := contacts_notified;
              result_dispatch_logs :=
                map (fun l => (contact_name (log_contact l), log_channel l, log_status l))
                  dispatch_logs |}, alert)
  end.

End WithStrip.

End DispatchService.

(** ** services.py: GeoSpatialService *)

(** A distance as a Python float: a finite value or [float('inf')]. *)
Inductive Distance :=
| Finite (d : Q)
| Infinity.

Module GeoSpatialService.

Definition Qlt_bool (x y : Q) : bool := negb (Qle_bool y x).

(** [distance < min_distance] *)
Definition lt_distance (d : Q) (m : Distance) : bool :=
  match m with
  | Infinity => true
  | Finite m => Qlt_bool d m
  end.

Section WithDistance.

(** [GeoSpatialService.haversine_distance]: the great-circle distance in
    metres.  Its trigonometry is floating point and stays abstract; the scan
    only compares its results.  The formula takes [sqrt(1 - a)], which
    raises [ValueError] when rounding has made [a] exceed 1, as it does for
    some nearly antipodal points: the result is [None] then. *)
Variable haversine_distance : Q -> Q -> Q -> Q -> option Q.

(** [distance <= zone.radius_meters] *)
Definition within (distance : Q) (zone : SafeZone) : bool :=
  Qle_bool distance (inject_Z (radius_meters zone)).

(** The [for zone in safe_zones] loop of [is_in_safe_zone]. *)
Fixpoint scan_zones (latitude longitude : Q) (safe_zones : list SafeZone)
    (nearest_zone : option SafeZone) (min_distance : Distance)
    : outcome (bool * option SafeZone * Distance) :=
  match safe_zones with
  | [] => Return (false, nearest_zone, min_distance)
  | zone :: rest =>
      match haversine_distance latitude longitude
              (zone_latitude zone) (zone_longitude zone) with
      | None => Raise ValueError
      | Some distance =>
          let '(nearest_zone, min_distance) :=
            if lt_distance distance min_distance then (Some zone, Finite distance)
            else (nearest_zone, min_distance) in
          if within distance zone then Return (true, Some zone, Finite distance)
          else scan_zones latitude longitude rest nearest_zone min_distance
      end
  end.

(** [GeoSpatialService.is_in_safe_zone] *)
Definition is_in_safe_zone (db : DB) (u : User) (latitude longitude : Q)
    : outcome (bool * option SafeZone * Distance) :=
  scan_zones latitude longitude (active_zones_of (id u) db) None Infinity.

End WithDistance.

End GeoSpatialService.

(** ** consumers.py *)

(** The fields of the inbound messages, as [data.get] returns them. *)
Record LocationUpdate := {
  lu_alert_id : option uuid;
  lu_latitude : pyval;
  lu_longitude : pyval;
  lu_accuracy : pyval;
  lu_altitude : pyval;
  lu_speed : pyval;
  lu_heading : pyval;
}.

Record AlertTrigger := {
  at_latitude : pyval;
  at_longitude : pyval;
  at_trigger_method : option string;
  at_user_agent : option string;
  at_ip_address : option string;
}.

Record AlertCancel := {
  ac_alert_id : option uuid;
  ac_reason : option string;
}.

Record SafeWordCheck := {
  sw_alert_id : option uuid;
  sw_safe_word : option string;
}.

Record LocationData := {
  ld_id : N;
  ld_latitude : Q;
  ld_longitude : Q;
  ld_accuracy : pyval;
  ld_timestamp : datetime;
  ld_is_in_safe_zone : bool;
}.

Record AlertData := {
  ad_alert_id : uuid;
  ad_status : Status;
  ad_triggered_at : datetime;
}.

(** A JSON object received as a frame, by its [type] field; an object of
    any other type is ignored. *)
Inductive Inbound :=
| location_update (data : LocationUpdate)
| alert_trigger (data : AlertTrigger)
| alert_cancel (data : AlertCancel)
| safe_word_check (data : SafeWordCheck)
| other_type.

(** What [json.loads] makes of the text of a frame: it raises on text that
    is not JSON, and yields a value that has no [get] method unless the text
    is a JSON object. *)
Inductive TextData :=
| not_json
| not_an_object
| json_object (data : Inbound).

(** What a handler emits: messages to its own socket and events to the
    monitor group of an alert. *)
Inductive Outbound :=
| send_error (message : string) (alert : option uuid)
| send_location_saved (data : LocationData)
| send_alert_triggered (alert : AlertData)
| send_alert_cancelled (message : string) (alert : option uuid)
| send_safe_word_result (valid : bool) (alert : option uuid)
| group_send_location (monitor_group : uuid) (location : LocationData).

Module AlertConsumer.

Section WithUser.

Variable Decimal_str : pyval -> option Q.

(** [float(v)]; [None] when it raises. *)
Variable py_float : pyval -> option Q.

(** [str(v)], as an f-string formats a value. *)
Variable py_str : pyval -> string.

(** [s.lower()] *)
Variable str_lower : string -> string.

(** The haversine formula; [None] when its [sqrt(1 - a)] raises
    [ValueError]. *)
Variable haversine_distance : Q -> Q -> Q -> Q -> option Q.

(** [self.user], the authenticated user of the connection. *)
Variable self_user : User.

Definition Decimal (v : pyval) : M Q :=
  match Decimal_str v with
  | Some d => ret d
  | None => raise InvalidOperation
  end.

Definition float (v : pyval) : M Q :=
  match py_float v with
  | Some x => ret x
  | None => raise ValueError
  end.

(** The loop of [check_safe_zone]: the same formula, inlined. *)
Fixpoint check_safe_zone_loop (lat lon : pyval) (safe_zones : list SafeZone)
    : M (bool * option SafeZone) :=
  match safe_zones with
  | [] => ret (false, None)
  | zone :: rest =>
      lat1 ← float lat;
      lon1 ← float lon;
      match haversine_distance lat1 lon1 (zone_latitude zone) (zone_longitude zone) with
      | None => raise ValueError
      | Some distance =>
          if Qle_bool distance (inject_Z (radius_meters zone))
          then ret (true, Some zone)
          else check_safe_zone_loop lat lon rest
      end
  end.

Definition check_safe_zone (lat lon : pyval) : M (bool * option SafeZone) :=
  db ← read_db;
  check_safe_zone_loop lat lon (active_zones_of (id self_user) db).

(** What a [FloatField(null=True)] stores for the attribute [v]: nothing
    for [None], otherwise [float(v)]; when that raises, so does the save. *)
Definition float_column (v : pyval) : M (option Q) :=
  match v with
  | PyNone => ret None
  | _ => x ← float v; ret (Some x)
  end.

(** [LocationTrack.objects.create(...)] with the next automatic key.  The
    four readings go into float columns; the row is inserted once all of
    them have been converted. *)
Definition LocationTrack_objects_create (alert : Alert) (lat lon : Q)
    (acc alt spd hdg : pyval) (inside : bool)
    (nearest : option SafeZone) : M LocationTrack :=
  acc ← float_column acc;
  alt ← float_column alt;
  spd ← float_column spd;
  hdg ← float_column hdg;
  now ← timezone_now;
  db ← read_db;
  let track :=
    {| track_id := N.of_nat (length (location_tracks db)) + 1;
       track_alert := alert_id alert; latitude := lat; longitude := lon;
       accuracy := acc; altitude := alt; speed := spd;
       heading := hdg; timestamp := now; is_in_safe_zone := inside;
       nearest_safe_zone := zone_id <$> nearest |} in
  write_db (with_location_tracks (location_tracks db ++ [track]) db);;
  ret track.

(** [save_location_track].  [track.accuracy] in the answer is the attribute
    of the object just created, which is the value it was given. *)
Definition save_location_track (aid : uuid) (lat lon : pyval)
    (acc alt spd hdg : pyval) : M (option LocationData) :=
  try_except
    (alert ← Alert_objects_get_for aid self_user;
     '(inside, nearest_zone) ← check_safe_zone lat lon;
     dlat ← Decimal lat;
     dlon ← Decimal lon;
     track ← LocationTrack_objects_create alert dlat dlon
               acc alt spd hdg inside nearest_zone;
     AuditLog_objects_create self_user (Some (alert_id alert)) LOCATION_UPDATED
       ("Location updated: (" ++ py_str lat ++ ", " ++ py_str lon ++ ")");;
     ret (Some {| ld_id := track_id track; ld_latitude := latitude track;
                  ld_longitude := longitude track;
                  ld_accuracy := acc;
                  ld_timestamp := timestamp track;
                  ld_is_in_safe_zone := is_in_safe_zone track |}))
    (fun _ => ret None).

(** [all([alert_id, latitude, longitude])] *)
Definition has_location_data (data : LocationUpdate) : bool :=
  forallb (fun b : bool => b)
    [bool_decide (is_Some (lu_alert_id data));
     truthy (lu_latitude data); truthy (lu_longitude data)].

Definition handle_location_update (data : LocationUpdate) : M (list Outbound) :=
  match lu_alert_id data with
  | Some aid =>
      if has_location_data data then
        location_data ← save_location_track aid
          (lu_latitude data) (lu_longitude data) (lu_accuracy data)
          (lu_altitude data) (lu_speed data) (lu_heading data);
        match location_data with
        | Some d => ret [group_send_location aid d; send_location_saved d]
        | None => ret []
        end
      else ret [send_error "Missing required location data" None]
  | None => ret [send_error "Missing required location data" None]
  end.

(** [AlertConsumer.create_alert]: it writes the row itself, without the
    service, and starts no cancellation timer. *)
Definition create_alert (new_id : uuid) (lat lon : pyval) (trigger_method : string)
    (user_agent ip_address : option string) : M (option AlertData) :=
  try_except
    (dlat ← AlertService.Decimal_if Decimal_str lat;
     dlon ← AlertService.Decimal_if Decimal_str lon;
     now ← timezone_now;
     alert ← Alert_objects_create
       {| alert_id := new_id; user := id self_user; status := TRIGGERED;
          triggered_at := now; trigger_method := trigger_method;
          initial_latitude := dlat; initial_longitude := dlon;
          cancellation_timer_started := None;
          cancelled_at := None; cancellation_reason := None;
          dispatched_at := None; contacts_notified := 0;
          resolved_at := None; resolution_notes := None;
          safe_word_attempted := false; safe_word_success := false;
          user_agent := user_agent; ip_address := ip_address;
          updated_at := now |};
     profile ← user_profile self_user;
     profile_save self_user (with_is_active_alert true profile);;
     AuditLog_objects_create self_user (Some (alert_id alert)) ALERT_TRIGGERED
       ("Alert triggered via " ++ trigger_method);;
     ret (Some {| ad_alert_id := alert_id alert; ad_status := status alert;
                  ad_triggered_at := triggered_at alert |}))
    (fun _ => ret None).

Definition handle_alert_trigger (new_id : uuid) (data : AlertTrigger)
    : M (list Outbound) :=
  alert_data ← create_alert new_id (at_latitude data) (at_longitude data)
    (default "panic_button" (at_trigger_method data))
    (at_user_agent data) (at_ip_address data);
  match alert_data with
  | Some a => ret [send_alert_triggered a]
  | None => ret []
  end.

(** [AlertConsumer.cancel_alert] *)
Definition cancel_alert (aid : option uuid) (reason : string) : M bool :=
  try_except
    (alert ← match aid with
             | Some k => Alert_objects_get_for k self_user
             | None => raise DoesNotExist
             end;
     now ← timezone_now;
     alert ← Alert_save
       (set_cancellation_reason (Some reason)
          (set_cancelled_at (Some now) (set_status CANCELLED alert)));
     profile ← user_profile self_user;
     profile_save self_user (with_is_active_alert false profile);;
     AuditLog_objects_create self_user (Some (alert_id alert)) ALERT_CANCELLED
       ("Alert cancelled: " ++ reason);;
     ret true)
    (fun _ => ret false).

Definition handle_alert_cancel (data : AlertCancel) : M (list Outbound) :=
  let aid := ac_alert_id data in
  let reason := default "" (ac_reason data) in
  success ← cancel_alert aid reason;
  ret [if success : bool
       then send_alert_cancelled "Alert cancelled successfully" aid
       else send_error "Failed to cancel alert" aid].

(** [AlertConsumer.verify_safe_word]; an absent [safe_word] field is
    [None], on which [.lower()] raises. *)
Definition verify_safe_word (aid : option uuid) (attempt : option string)
    : M bool :=
  try_except
    (alert ← match aid with
             | Some k => Alert_objects_get_for k self_user
             | None => raise DoesNotExist
             end;
     profile ← user_profile self_user;
     let alert := set_safe_word_attempted true alert in
     matches ← match safe_word profile with
               | None => ret false
               | Some w =>
                   if string_is_empty w then ret false
                   else match attempt with
                        | Some s => ret (bool_decide (str_lower w = str_lower s))
                        | None => raise AttributeError
                        end
               end;
     if matches : bool then
       Alert_save (set_safe_word_success true alert);; ret true
     else
       Alert_save alert;; ret false)
    (fun _ => ret false).

Definition handle_safe_word_check (data : SafeWordCheck) : M (list Outbound) :=
  is_valid ← verify_safe_word (sw_alert_id data) (sw_safe_word data);
  ret [send_safe_word_result is_valid (sw_alert_id data)].

(** [AlertConsumer.receive]; [new_id] is the key [uuid.uuid4] would draw
    should the frame create an alert.  Parsing the text and reading the
    [type] field are not inside any [try]. *)
Definition receive (new_id : uuid) (text_data : TextData) : M (list Outbound) :=
  match text_data with
  | not_json => raise JSONDecodeError
  | not_an_object => raise AttributeError
  | json_object (location_update data) => handle_location_update data
  | json_object (alert_trigger data) => handle_alert_trigger new_id data
  | json_object (alert_cancel data) => handle_alert_cancel data
  | json_object (safe_word_check data) => handle_safe_word_check data
  | json_object other_type => ret []
  end.

End WithUser.

End AlertConsumer.




Module MonitorConsumer.

Section WithConnection.

(** [s.strip()], which [User.get_full_name] applies. *)
Variable str_strip : string -> string.

(** [self.user] and [self.alert_id], the alert named in the URL. *)
Variable self_user : User.
Variable self_alert_id : uuid.



(** [alert.location_tracks.first()] under the ordering [-timestamp]. *)
Definition latest_track (aid : uuid) (db : DB) : option LocationTrack :=
  foldr
    (fun t acc =>
       if bool_decide (track_alert t = aid) then
         match acc with
         | Some t' => if timestamp t <? timestamp t' then Some t' else Some t
         | None => Some t
         end
       else acc)
    None (location_tracks db).


End WithConnection.


End MonitorConsumer.

(** ** views.py: the alert endpoints *)

Inductive JsonResponse :=
| already_active (alert : uuid)
| alert_triggered (alert : uuid) (st : Status)
| alert_cancelled
| cancel_failed
| cannot_dispatch
| alert_dispatched (contacts_notified : Z)
                   (dispatch_logs : list (string * Channel * DispatchStatus))
| server_error (e : exn).

Definition status_code (r : JsonResponse) : Z :=
  match r with
  | alert_triggered _ _ | alert_cancelled | alert_dispatched _ _ => 200
  | already_active _ | cancel_failed | cannot_dispatch => 400
  | server_error _ => 500
  end.


(** [Alert.objects.filter(user=u, status__in=[...])] *)
Definition is_active_for (uid : user_id) (a : Alert) : bool :=
  bool_decide (user a = uid) && non_terminal (status a).

Definition active_alerts_of (uid : user_id) (db : DB) : list Alert :=
  List.filter (is_active_for uid) (map_to_list (alerts db)).*2.

(** [.first()] under the ordering [-triggered_at] of [Alert.Meta]. *)
Definition first_alert (l : list Alert) : option Alert :=
  foldr
    (fun a acc =>
       match acc with
       | Some b => if triggered_at a <? triggered_at b then Some b else Some a
       | None => Some a
       end)
    None l.

Module Views.

Section WithRequest.

Variable Decimal_str : pyval -> option Q.

(** [s.strip()], which [User.get_full_name] applies. *)
Variable str_strip : string -> string.

(** [request.user]; [login_required] lets only an authenticated user in. *)
Variable request_user : User.

Definition trigger_alert_view (new_id : uuid) (data : AlertTrigger)
    (http_user_agent client_ip : option string) : M JsonResponse :=
  try_except
    (db ← read_db;
     match first_alert (active_alerts_of (id request_user) db) with
     | Some active_alert => ret (already_active (alert_id active_alert))
     | None =>
         alert ← AlertService.create_alert Decimal_str new_id request_user
           (at_latitude data) (at_longitude data)
           (default "panic_button" (at_trigger_method data))
           http_user_agent client_ip;
         ret (alert_triggered (alert_id alert) (status alert))
     end)
    (fun e => ret (server_error e)).



End WithRequest.

End Views.

(** ** views.py: the pages *)

(** [request.method], as far as the views test it: they compare with
    ['POST'] only. *)
Inductive Method := GET | POST.

(** The answer of a page view: a template rendered on a context, a
    redirect to a named route, or the 404 page that [get_object_or_404]
    produces. *)
Inductive HttpResponse (A : Type) :=
| http_render (context : A)
| http_redirect (route : string)
| http_not_found.
Arguments http_render {A} context.
Arguments http_redirect {A} route.
Arguments http_not_found {A}.

Record PanelContext := {
  panel_profile : UserProfile;
  panel_active_alert : option Alert;
  panel_has_contacts : bool;
}.

Module Pages.

Section WithRequest.

(** [request.user]; every page is behind [login_required]. *)
Variable request_user : User.

(** [UserProfile.objects.get_or_create(user=request.user,
    defaults={'phone_number': ''})]: a new profile has no safe word and no
    active alert. *)
Definition get_or_create_profile : M UserProfile :=
  db ← read_db;
  match profiles db !! id request_user with
  | Some p => ret p
  | None =>
      let p := {| safe_word := None; is_active_alert := false |} in
      write_db (with_profiles (<[id request_user := p]> (profiles db)) db);;
      ret p
  end.

(** [alert_panel_view]: the context its template is rendered on. *)
Definition alert_panel_view : M PanelContext :=
  profile ← get_or_create_profile;
  db ← read_db;
  ret {| panel_profile := profile;
         panel_active_alert := first_alert (active_alerts_of (id request_user) db);
         panel_has_contacts :=
           match active_contacts_of (id request_user) db with
           | [] => false
           | _ :: _ => true
           end |}.



(** [get_object_or_404(EmergencyContact, id=cid, user=request.user)] *)
Definition get_contact_or_404 (cid : N) (db : DB) : option EmergencyContact :=
  List.find
    (fun c => bool_decide (contact_id c = cid)
              && bool_decide (contact_user c = id request_user))
    (emergency_contacts db).

(** [contact.delete()]: the row goes, and with it the dispatch records
    that reference it ([DispatchLog.contact] is declared
    [on_delete=models.CASCADE]). *)
Definition contact_delete (contact : EmergencyContact) : M unit :=
  db ← read_db;
  write_db
    {| users := users db; profiles := profiles db;
       emergency_contacts :=
         List.filter
           (fun c => negb (bool_decide (contact_id c = contact_id contact)))
           (emergency_contacts db);
       safe_zones := safe_zones db; alerts := alerts db;
       location_tracks := location_tracks db;
       dispatch_logs :=
         List.filter
           (fun l => negb (bool_decide
                             (contact_id (log_contact l) = contact_id contact)))
           (dispatch_logs db);
       audit_logs := audit_logs db |}.

(** [contact_delete_view] *)
Definition contact_delete_view (method : Method) (cid : N)
    : M (HttpResponse EmergencyContact) :=
  db ← read_db;
  match get_contact_or_404 cid db with
  | None => ret http_not_found
  | Some contact =>
      match method with
      | POST => contact_delete contact;; ret (http_redirect "contacts")
      | GET => ret (http_render contact)
      end
  end.

End WithRequest.

End Pages.

(** ** views.py: utility *)

(** [s.split(',')[0]] *)
Fixpoint before_comma (s : string) : string :=
  match s with
  | EmptyString => EmptyString
  | String c r => if Ascii.eqb c "," then EmptyString else String c (before_comma r)
  end.

(** [get_client_ip]: [forwarded] and [remote] are what [request.META.get]
    returns for [HTTP_X_FORWARDED_FOR] and [REMOTE_ADDR]. *)
Definition get_client_ip (forwarded remote : option string) : option string :=
  match forwarded with
  | Some x_forwarded_for =>
      if string_is_empty x_forwarded_for then remote
      else Some (before_comma x_forwarded_for)
  | None => remote
  end.

(** ** models.py: the phone number fields

    [UserProfile.phone_number] and [EmergencyContact.phone_number] are
    declared with [max_length=15] and a [RegexValidator] on
    [^\+?1?\d{9,15}$].  The pattern is kept as data and matched by a
    backtracking matcher for the constructs it uses; a text is a string of
    ASCII characters. *)

Inductive regex : Type :=
  | Char (c : ascii)
  | Digit
  | Opt (r : regex)
  | Repeat (r : regex) (lo hi : nat)
  | Seq (r1 r2 : regex)
  | End.

(** [\d] *)
Definition is_digit (c : ascii) : bool :=
  ((48 <=? nat_of_ascii c) && (nat_of_ascii c <=? 57))%nat.

Definition newline : string := String (ascii_of_nat 10) EmptyString.

(** [$] without [re.MULTILINE]: at the end of the text, or just before a
    newline that ends it. *)
Definition at_end (s : string) : bool :=
  String.eqb s EmptyString || String.eqb s newline.

(** [r{lo,hi}]: every way to match [step] between [lo] and [hi] times. *)
Fixpoint rep (step : string -> list string) (lo hi : nat) (s : string)
  : list string :=
  match hi with
  | O => match lo with O => [s] | S _ => [] end
  | S hi' =>
      (step s ≫= rep step (Nat.pred lo) hi')
      ++ match lo with O => [s] | S _ => [] end
  end.

(** What is left of [s] after each way to match [r] at its start, in the
    order a backtracking matcher tries them. *)
Fixpoint matches (r : regex) (s : string) : list string :=
  match r with
  | Char c =>
      match s with
      | String d t => if Ascii.eqb c d then [t] else []
      | EmptyString => []
      end
  | Digit =>
      match s with
      | String d t => if is_digit d then [t] else []
      | EmptyString => []
      end
  | Opt r => matches r s ++ [s]
  | Repeat r lo hi => rep (matches r) lo hi s
  | Seq r1 r2 => matches r1 s ≫= matches r2
  | End => if at_end s then [s] else []
  end.

(** [regex.search(value)] for a pattern that starts with [^]. *)
Definition search_anchored (r : regex) (s : string) : bool :=
  match matches r s with
  | [] => false
  | _ :: _ => true
  end.

Definition phone_regex : regex :=
  Seq (Opt (Char "+")) (Seq (Opt (Char "1")) (Seq (Repeat Digit 9 15) End)).

(** The validators of the field: [RegexValidator], then the
    [MaxLengthValidator] that [max_length=15] adds. *)
Definition phone_number_valid (value : string) : bool :=
  search_anchored phone_regex value && (String.length value <=? 15)%nat.

(** * Vocabulary of the properties *)

Local Open Scope list_scope.

(** ** Statements about one call *)

Definition priority_le (c d : EmergencyContact) : Prop := priority c <= priority d.

(** The contacts of priority [p]; a sort is stable when it keeps each such
    sublist as it was. *)
Definition has_priority (p : Z) (c : EmergencyContact) : bool := priority c =? p.

(** The record of a simulated delivery on channel [ch] to contact [c]. *)
Definition simulated_log (str_strip : string -> string) (alert : Alert)
    (u : User) (now : datetime) (ch : Channel) (c : EmergencyContact)
    : DispatchLog :=
  {| log_alert := alert_id alert; log_contact := c; log_channel := ch;
     log_status := SIMULATED;
     message_content := DispatchService.compose_message str_strip ch alert u c;
     sent_at := Some now; log_created_at := now |}.

Definition logs_for (str_strip : string -> string) (alert : Alert) (u : User)
    (now : datetime) (c : EmergencyContact) : list DispatchLog :=
  [simulated_log str_strip alert u now SMS c;
   simulated_log str_strip alert u now EMAIL c].

(** The alert object [dispatch_alert] leaves behind. *)
Definition dispatched (now : datetime) (n : Z) (alert : Alert) : Alert :=
  set_updated_at now
    (set_contacts_notified n
       (set_dispatched_at (Some now) (set_status DISPATCHED alert))).

(** The order the claim asks for, on one pair of contacts: priority
    ascending, equal priorities by name. *)
Definition by_priority_then_name (c d : EmergencyContact) : Prop :=
  priority c < priority d
  \/ (priority c = priority d /\ String.leb (contact_name c) (contact_name d) = true).

(** The contacts a dispatch processed, read off the SMS records it
    appended to the table. *)
Definition contacts_processed (before after : DB) : list EmergencyContact :=
  map log_contact
    (List.filter (fun l => bool_decide (log_channel l = SMS))
       (drop (length (dispatch_logs before)) (dispatch_logs after))).

(** The alert object the cancel paths leave behind. *)
Definition cancelled (now : datetime) (reason : string) (alert : Alert) : Alert :=
  set_updated_at now
    (set_cancellation_reason (Some reason)
       (set_cancelled_at (Some now) (set_status CANCELLED alert))).

(** The alert object [resolve_alert] leaves behind. *)
Definition resolved (now : datetime) (notes : string) (alert : Alert) : Alert :=
  set_updated_at now
    (set_resolution_notes (Some notes)
       (set_resolved_at (Some now) (set_status RESOLVED alert))).

(** C3 as stated, on one call: the row of a terminal alert keeps its
    status, resolution timestamp and notes across [resolve_alert]. *)
Definition untouched_by_resolve (alert : Alert) (notes : string)
    (env : Ambient) (db : DB) : Prop :=
  forall alert',
    alerts (snd (AlertService.resolve_alert alert notes env db)) !! alert_id alert
    = Some alert' ->
    status alert' = status alert
    /\ resolved_at alert' = resolved_at alert
    /\ resolution_notes alert' = resolution_notes alert.

(** C7 as stated: the threshold is not read from the settings, so two
    runs that differ in the settings alone agree. *)
Definition timeout_not_ambient : Prop :=
  forall alert now s1 s2 db,
    AlertService.check_timeout alert {| clock := now; settings := s1 |} db
    = AlertService.check_timeout alert {| clock := now; settings := s2 |} db.

(** The timer of [alert] has run for the configured timeout: the alert is
    [TRIGGERED], its timer was started, and at least
    [ALERT_CANCELLATION_TIMEOUT] seconds (120 when the settings do not
    define it) have passed since. *)
Definition timer_expired (alert : Alert) (env : Ambient) : Prop :=
  status alert = TRIGGERED
  /\ exists started,
       cancellation_timer_started alert = Some started
       /\ AlertService.getattr_timeout (settings env) * 1000000
          <= clock env - started.


(** No user has more than one alert in a non-terminal status. *)
Definition one_active_alert_per_user (db : DB) : Prop :=
  forall uid, (length (active_alerts_of uid db) <= 1)%nat.




(** The distance from the point to the centre of a zone, when the formula
    yields one. *)
Definition zone_distance (haversine_distance : Q -> Q -> Q -> Q -> option Q)
    (latitude longitude : Q) (zone : SafeZone) : option Q :=
  haversine_distance latitude longitude (zone_latitude zone) (zone_longitude zone).





(** What [Decimal(str(v)) if v else None] stores when it does not raise:
    nothing for a false value, the decimal otherwise. *)
Definition stored_coordinate (Decimal_str : pyval -> option Q) (v : pyval)
    : option Q :=
  if truthy v then Decimal_str v else None.

(** The conversion of [v], if it is attempted at all, succeeds. *)
Definition convertible (Decimal_str : pyval -> option Q) (v : pyval) : Prop :=
  truthy v = true -> is_Some (Decimal_str v).

(** The row both trigger paths insert; the service passes the current time
    as [timer], the gateway nothing. *)
Definition triggered_alert (new_id : uuid) (u : User) (now : datetime)
    (method : string) (lat lon : option Q) (timer : option datetime)
    (agent ip : option string) : Alert :=
  {| alert_id := new_id; user := id u; status := TRIGGERED;
     triggered_at := now; trigger_method := method;
     initial_latitude := lat; initial_longitude := lon;
     cancellation_timer_started := timer;
     cancelled_at := None; cancellation_reason := None;
     dispatched_at := None; contacts_notified := 0;
     resolved_at := None; resolution_notes := None;
     safe_word_attempted := false; safe_word_success := false;
     user_agent := agent; ip_address := ip; updated_at := now |}.

(** ** A small deployment

    One user with an alert, her contacts and zones, and two other users;
    the data the examples below run on. *)

Module Scenario.

Definition alice : User :=
  {| id := 1%N; username := "alice"; first_name := "Alice";
     last_name := "Ardent"; email := "alice@example.org" |}.

Definition bob : User :=
  {| id := 2%N; username := "bob"; first_name := "Bob";
     last_name := ""; email := "bob@example.org" |}.

Definition carol : User :=
  {| id := 3%N; username := "carol"; first_name := "";
     last_name := ""; email := "carol@example.org" |}.

Definition contact (k : N) (name mail : string) (prio : Z) (active : bool)
    : EmergencyContact :=
  {| contact_id := k; contact_user := 1%N; contact_name := name;
     contact_email := mail; priority := prio; contact_is_active := active |}.

Definition mum := contact 1 "Mum" "mum@example.org" 2 true.
Definition dad := contact 2 "Dad" "dad@example.org" 1 true.
Definition gran := contact 3 "Gran" "gran@example.org" 3 true.
Definition zed := contact 4 "Zed" "zed@example.org" 1 true.
Definition amy := contact 5 "Amy" "amy@example.org" 1 true.
Definition bob_inactive := contact 6 "Bob" "bob@example.org" 1 false.

(** Alice's alert, triggered at time 0 with the timer started then, in
    status [st]. *)
Definition alert_in (st : Status) : Alert :=
  {| alert_id := 7%N; user := 1%N; status := st; triggered_at := 0;
     trigger_method := "panic_button";
     initial_latitude := None; initial_longitude := None;
     cancellation_timer_started := Some 0;
     cancelled_at := None; cancellation_reason := None;
     dispatched_at := None; contacts_notified := 0;
     resolved_at := None; resolution_notes := None;
     safe_word_attempted := false; safe_word_success := false;
     user_agent := None; ip_address := None; updated_at := 0 |}.


Definition db_of (contacts : list EmergencyContact) (zones : list SafeZone)
    (stored : gmap N Alert) : DB :=
  {| users := {[ 1%N := alice; 2%N := bob; 3%N := carol ]};
     profiles :=
       {[ 1%N := {| safe_word := Some "Blue42"; is_active_alert := false |} ]};
     emergency_contacts := contacts; safe_zones := zones; alerts := stored;
     location_tracks := []; dispatch_logs := []; audit_logs := [] |}.

(** A stand-in for [Decimal(str(v))] on which the examples run: numbers
    convert, everything else raises. *)
Definition decimal_of (v : pyval) : option Q :=
  match v with
  | PyInt z => Some (inject_Z z)
  | PyFloat q => Some q
  | PyNone | PyBool _ | PyStr _ => None
  end.

(** A stand-in for [s.lower()]: it lowercases the letters A to Z, as
    [str.lower] does on the ASCII text of the examples. *)
Definition ascii_lower (c : ascii) : ascii :=
  let n := nat_of_ascii c in
  if ((65 <=? n)%nat && (n <=? 90)%nat)%bool then ascii_of_nat (n + 32) else c.

Fixpoint lower_of (s : string) : string :=
  match s with
  | EmptyString => EmptyString
  | String c r => String (ascii_lower c) (lower_of r)
  end.

(** A stand-in for [s.strip()]: it removes the ASCII whitespace (tab to
    carriage return, the four separators, space) at both ends. *)
Definition is_space (c : ascii) : bool :=
  let n := nat_of_ascii c in
  ((9 <=? n)%nat && (n <=? 13)%nat || (28 <=? n)%nat && (n <=? 32)%nat)%bool.

Fixpoint lstrip (s : string) : string :=
  match s with
  | EmptyString => EmptyString
  | String c r => if is_space c then lstrip r else s
  end.

Fixpoint rstrip (s : string) : string :=
  match s with
  | EmptyString => EmptyString
  | String c r =>
      let r' := rstrip r in
      if is_space c && string_is_empty r' then EmptyString else String c r'
  end.

Definition strip_of (s : string) : string := rstrip (lstrip s).

(** A stand-in for [str(v)]. *)
Definition str_of (v : pyval) : string :=
  match v with
  | PyNone => "None"
  | PyBool b => if b then "True" else "False"
  | PyInt z => pretty z
  | PyFloat q => pretty (Qnum q) ++ "/" ++ pretty (Zpos (Qden q))
  | PyStr s => s
  end.

(** An [alert_trigger] message without coordinates. *)
Definition panic : AlertTrigger :=
  {| at_latitude := PyNone; at_longitude := PyNone;
     at_trigger_method := None; at_user_agent := None; at_ip_address := None |}.

(** A [location_update] message for Alice's alert. *)
Definition location (lat lon : pyval) : LocationUpdate :=
  {| lu_alert_id := Some 7%N; lu_latitude := lat; lu_longitude := lon;
     lu_accuracy := PyNone; lu_altitude := PyNone; lu_speed := PyNone;
     lu_heading := PyNone |}.

(** The clock reads [seconds] after the trigger; the settings define no
    timeout. *)
Definition at_second (seconds : Z) : Ambient :=
  {| clock := seconds * 1000000;
     settings := {| ALERT_CANCELLATION_TIMEOUT := None |} |}.

End Scenario.

(** A stand-in for the great-circle distance on which the scan can be run:
    about 111 km per degree along each axis; like the formula, it has no
    value for points half the globe apart. *)
Definition grid_distance (lat1 lon1 lat2 lon2 : Q) : option Q :=
  let degrees := (Qabs (lat2 - lat1) + Qabs (lon2 - lon1))%Q in
  if Qle_bool 180 degrees then None else Some (degrees * 111000)%Q.

Module Zones.

Definition zone (k : N) (name : string) (lat lon : Q) (radius : Z)
    (active : bool) : SafeZone :=
  {| zone_id := k; zone_user := 1%N; zone_name := name;
     zone_latitude := lat; zone_longitude := lon;
     radius_meters := radius; zone_is_active := active |}.


End Zones.

(** ** Statements about sequences of calls *)

(** Every alert is stored under its own identifier, as a primary key
    column is. *)
Definition keyed_by_id (db : DB) : Prop :=
  forall k a, alerts db !! k = Some a -> alert_id a = k.

(** The audit row an operation of [u] on alert [aid] appends. *)
Definition audit_row (u : User) (aid : uuid) (act : Action) (descr : string)
    (now : datetime) : AuditLog :=
  {| audit_user := id u; audit_alert := Some aid; action := act;
     description := descr; audit_timestamp := now |}.

(** What a float column holds for the reading [v] once the row is saved:
    nothing for [None], otherwise [float(v)]. *)
Definition stored_reading (py_float : pyval -> option Q) (v : pyval) : option Q :=
  match v with
  | PyNone => None
  | _ => py_float v
  end.

(** The reading [v] can be saved in a float column: it is absent, or
    [float(v)] has a value. *)
Definition storable (py_float : pyval -> option Q) (v : pyval) : Prop :=
  v = PyNone \/ is_Some (py_float v).

(** The row [save_location_track] inserts for alert [a]: the next key, the
    converted coordinates, the optional readings as the float columns hold
    them, and the outcome of the geofence check. *)
Definition location_row (db : DB) (a : Alert) (now : datetime) (dlat dlon : Q)
    (acc alt spd hdg : option Q) (inside : bool) (zone : option SafeZone)
    : LocationTrack :=
  {| track_id := N.of_nat (length (location_tracks db)) + 1;
     track_alert := alert_id a; latitude := dlat; longitude := dlon;
     accuracy := acc; altitude := alt; speed := spd; heading := hdg;
     timestamp := now; is_in_safe_zone := inside;
     nearest_safe_zone := zone_id <$> zone |}.


(** [aid] names no alert of [u]: it is unknown, or the alert belongs to
    someone else. *)
Definition not_own_alert (u : User) (aid : uuid) (db : DB) : Prop :=
  alerts db !! aid = None
  \/ exists a, alerts db !! aid = Some a /\ user a <> id u.

(** From [db] to [db'] nothing of anybody but user [uid] was changed, and
    nothing was erased: accounts, contacts, zones and dispatch records are
    the same, audit rows and location rows were at most appended, and the
    alerts and profiles of other users are as they were. *)
Definition touches_only (uid : user_id) (db db' : DB) : Prop :=
  users db' = users db
  /\ emergency_contacts db' = emergency_contacts db
  /\ safe_zones db' = safe_zones db
  /\ dispatch_logs db' = dispatch_logs db
  /\ audit_logs db `prefix_of` audit_logs db'
  /\ location_tracks db `prefix_of` location_tracks db'
  /\ (forall k a, alerts db !! k = Some a -> user a <> uid -> alerts db' !! k = Some a)
  /\ (forall v, v <> uid -> profiles db' !! v = profiles db !! v).

(** No character of [s] is a comma. *)
Fixpoint comma_free (s : string) : Prop :=
  match s with
  | EmptyString => True
  | String c r => c <> ","%char /\ comma_free r
  end.

(** Every character of [s] is a decimal digit. *)
Fixpoint digits (s : string) : Prop :=
  match s with
  | EmptyString => True
  | String c r => is_digit c = true /\ digits r
  end.


(** The profile holds a safe word the code will compare with: a non-empty
    one. *)
Definition safe_word_configured (p : UserProfile) : Prop :=
  exists w, safe_word p = Some w /\ w <> ""%string.

(** A decimal that a column declared [DecimalField(max_digits=9,
    decimal_places=6)] hands back as it was written: a whole number of
    millionths, of fewer than ten digits.  Any other value is rounded when
    the row is read, or makes the read raise [InvalidOperation]. *)
Definition fits_column (q : Q) : Prop :=
  exists n : Z, (q == n # 1000000)%Q /\ -1000000000 < n < 1000000000.

(** The alert row can be read back as it is stored: its coordinates, where
    it has them, fit their columns. *)
Definition readable (a : Alert) : Prop :=
  (forall q, initial_latitude a = Some q -> fits_column q)
  /\ (forall q, initial_longitude a = Some q -> fits_column q).

(** * Properties *)

(** ** Running the monad *)

Ltac unfold_m :=
  unfold mbind, M_bind, bind, mret, M_ret, ret, raise, try_except,
    read_db, write_db, timezone_now, get_settings in *.

Lemma with_dispatch_logs_same db : with_dispatch_logs (dispatch_logs db) db = db.
Proof. by destruct db. Qed.

Lemma with_dispatch_logs_twice l l' db :
  with_dispatch_logs l' (with_dispatch_logs l db) = with_dispatch_logs l' db.
Proof. done. Qed.

(** ** Ordering of the contacts *)

Lemma insert_by_priority_perm c l : insert_by_priority c l ≡ₚ c :: l.
Proof.
  induction l as [|d r IH]; simpl; [done|].
  destruct (priority c <=? priority d); [done|].
  rewrite IH. apply Permutation_swap.
Qed.

Lemma order_by_priority_perm l : order_by_priority l ≡ₚ l.
Proof.
  induction l as [|c l IH]; simpl; [done|].
  unfold order_by_priority in *. simpl.
  rewrite insert_by_priority_perm. by rewrite IH.
Qed.

Lemma insert_by_priority_sorted c l :
  StronglySorted priority_le l -> StronglySorted priority_le (insert_by_priority c l).
Proof.
  induction 1 as [|d r Hr IH Hd]; simpl.
  - repeat constructor.
  - destruct (Z.leb_spec (priority c) (priority d)) as [Hle|Hgt].
    + constructor; [by constructor|].
      constructor; [done|].
      eapply Forall_impl; [exact Hd|]. unfold priority_le. intros; lia.
    + constructor; [done|].
      rewrite insert_by_priority_perm. constructor; [|done].
      unfold priority_le. lia.
Qed.

Lemma order_by_priority_sorted l : StronglySorted priority_le (order_by_priority l).
Proof.
  induction l as [|c l IH]; [constructor|].
  by apply insert_by_priority_sorted.
Qed.

(** The sort is stable: among contacts of one priority the storage order
    is kept. *)
Lemma insert_by_priority_stable p c l :
  StronglySorted priority_le l ->
  List.filter (has_priority p) (insert_by_priority c l)
  = List.filter (has_priority p) (c :: l).
Proof.
  induction 1 as [|d r Hr IH Hd]; [done|].
  cbn [insert_by_priority].
  destruct (Z.leb_spec (priority c) (priority d)) as [Hle|Hgt]; [done|].
  cbn [List.filter]. rewrite IH. cbn [List.filter].
  destruct (has_priority p d) eqn:Ed; destruct (has_priority p c) eqn:Ec;
    try done.
  unfold has_priority in Ed, Ec. lia.
Qed.

Lemma order_by_priority_stable p l :
  List.filter (has_priority p) (order_by_priority l) = List.filter (has_priority p) l.
Proof.
  induction l as [|c l IH]; [done|].
  change (order_by_priority (c :: l))
    with (insert_by_priority c (order_by_priority l)).
  rewrite insert_by_priority_stable by apply order_by_priority_sorted.
  cbn [List.filter]. by rewrite IH.
Qed.

Lemma order_by_priority_nil l : order_by_priority l = [] <-> l = [].
Proof.
  split; [|by intros ->].
  intros H. apply Permutation_nil_r. rewrite <- H.
  symmetry. apply order_by_priority_perm.
Qed.

(** ** Dispatch *)

Lemma send_run str_strip ch alert u contact env db :
  users db !! user alert = Some u ->
  DispatchService._send str_strip ch alert contact env db
  = (Return (simulated_log str_strip alert u (clock env) ch contact),
     with_dispatch_logs
       (dispatch_logs db ++ [simulated_log str_strip alert u (clock env) ch contact]) db).
Proof.
  intros Hu.
  unfold DispatchService._send, DispatchService._generate_message,
    alert_user, DispatchLog_objects_create.
  unfold_m. by rewrite Hu.
Qed.

Lemma dispatch_loop_run str_strip alert u env contacts :
  forall db logs n,
    users db !! user alert = Some u ->
    DispatchService.dispatch_loop str_strip alert contacts logs n env db
    = (Return (logs ++ flat_map (logs_for str_strip alert u (clock env)) contacts,
               n + Z.of_nat (length contacts)),
       with_dispatch_logs
         (dispatch_logs db ++ flat_map (logs_for str_strip alert u (clock env)) contacts) db).
Proof.
  induction contacts as [|c cs IH]; intros db logs n Hu.
  - cbn. rewrite !app_nil_r, Z.add_0_r, with_dispatch_logs_same. done.
  - cbn [DispatchService.dispatch_loop].
    unfold DispatchService._send_sms, DispatchService._send_email.
    unfold mbind, M_bind, bind.
    rewrite (send_run str_strip SMS alert u c env db Hu).
    rewrite (send_run str_strip EMAIL alert u c env) by exact Hu.
    rewrite IH by exact Hu.
    unfold with_dispatch_logs.
    cbn [flat_map logs_for length dispatch_logs users profiles
           emergency_contacts safe_zones alerts location_tracks audit_logs app].
    rewrite <- !app_assoc. cbn [app].
    do 3 f_equal. lia.
Qed.
(** C6: when the owner of the alert has no active emergency contact,
    [dispatch_alert] returns the unsuccessful result "No active emergency
    contacts found" with no contact notified and no dispatch record, and
    neither the alert object nor any table of the database changes. *)
Theorem dispatch_without_active_contacts str_strip alert u env db :
  users db !! user alert = Some u ->
  active_contacts_of (id u) db = [] ->
  DispatchService.dispatch_alert str_strip alert env db
  = (Return
       ({| DispatchService.success := false;
           DispatchService.result_message :=
             Some "No active emergency contacts found"%string;
           DispatchService.result_contacts_notified := 0;
           DispatchService.result_dispatch_logs := [] |}, alert), db).
Proof.
  intros Hu Hnone.
  unfold DispatchService.dispatch_alert, alert_user. unfold_m.
  by rewrite Hu, Hnone.
Qed.

Lemma dispatch_without_active_contacts_witness :
  let db := Scenario.db_of [Scenario.bob_inactive] []
              {[ 7%N := Scenario.alert_in TRIGGERED ]} in
  active_contacts_of 1%N db = []
  /\ DispatchService.dispatch_alert Scenario.strip_of
       (Scenario.alert_in TRIGGERED) (Scenario.at_second 5) db
     = (Return
          ({| DispatchService.success := false;
              DispatchService.result_message :=
                Some "No active emergency contacts found"%string;
              DispatchService.result_contacts_notified := 0;
              DispatchService.result_dispatch_logs := [] |},
           Scenario.alert_in TRIGGERED), db).
Proof.
  split; [reflexivity|].
  apply (dispatch_without_active_contacts Scenario.strip_of _ Scenario.alice); reflexivity.
Defined.

(** C5, as the code has it: when the owner has at least one active
    contact, [dispatch_alert] processes the active contacts in ascending
    priority, contacts of equal priority in storage order (the explicit
    [order_by('priority')] sorts on that column alone, no name tie-break);
    it appends one SMS and one EMAIL record per contact, in that contact
    order; it then stores the alert with [contacts_notified] the number of
    contacts processed, [dispatched_at] the current time and status
    [DISPATCHED], and reports success. *)
Theorem dispatch_alert_by_priority str_strip alert u env db :
  users db !! user alert = Some u ->
  active_contacts_of (id u) db <> [] ->
  let contacts := order_by_priority (active_contacts_of (id u) db) in
  let n := Z.of_nat (length contacts) in
  let alert' := dispatched (clock env) n alert in
  StronglySorted priority_le contacts
  /\ contacts ≡ₚ active_contacts_of (id u) db
  /\ (forall p, List.filter (has_priority p) contacts
                = List.filter (has_priority p) (active_contacts_of (id u) db))
  /\ exists result db',
       DispatchService.dispatch_alert str_strip alert env db = (Return (result, alert'), db')
       /\ DispatchService.success result = true
       /\ DispatchService.result_contacts_notified result = n
       /\ dispatch_logs db'
          = dispatch_logs db ++ flat_map (logs_for str_strip alert u (clock env)) contacts
       /\ alerts db' = <[alert_id alert := alert']> (alerts db)
       /\ status alert' = DISPATCHED
       /\ dispatched_at alert' = Some (clock env)
       /\ contacts_notified alert' = n.
Proof.
  intros Hu Hsome contacts n alert'.
  split; [apply order_by_priority_sorted|].
  split; [apply order_by_priority_perm|].
  split; [intros p; apply order_by_priority_stable|].
  assert (Hne : contacts <> [])
    by (subst contacts; by rewrite order_by_priority_nil).
  unfold DispatchService.dispatch_alert, alert_user.
  unfold_m. rewrite Hu. fold contacts.
  subst alert' n. clearbody contacts.
  destruct contacts as [|c cs]; [done|].
  rewrite (dispatch_loop_run str_strip alert u env (c :: cs) db [] 0 Hu).
  unfold Alert_save, AuditLog_objects_create. unfold_m.
  cbn [app]. rewrite Z.add_0_l.
  eexists _, _. split; [reflexivity|]. cbn. done.
Qed.

Lemma dispatch_alert_by_priority_witness :
  let db := Scenario.db_of [Scenario.mum; Scenario.dad; Scenario.gran] []
              {[ 7%N := Scenario.alert_in TRIGGERED ]} in
  let db' := snd (DispatchService.dispatch_alert Scenario.strip_of
                    (Scenario.alert_in TRIGGERED) (Scenario.at_second 5) db) in
  order_by_priority (active_contacts_of 1%N db)
  = [Scenario.dad; Scenario.mum; Scenario.gran]
  /\ map (fun l => (contact_name (log_contact l), log_channel l)) (dispatch_logs db')
     = [("Dad", SMS); ("Dad", EMAIL); ("Mum", SMS); ("Mum", EMAIL);
        ("Gran", SMS); ("Gran", EMAIL)]%string
  /\ (status <$> alerts db' !! 7%N) = Some DISPATCHED
  /\ (contacts_notified <$> alerts db' !! 7%N) = Some 3.
Proof.
  intros db db'.
  destruct (dispatch_alert_by_priority Scenario.strip_of
              (Scenario.alert_in TRIGGERED) Scenario.alice (Scenario.at_second 5) db)
    as (_ & _ & _ & result & db'' & Hrun & _ & _ & Hlogs & Halerts & _);
    [reflexivity|discriminate|].
  subst db'. rewrite Hrun. cbn [snd].
  rewrite Hlogs, Halerts, lookup_insert_eq.
  repeat split; reflexivity.
Defined.

(** C5, as stated, fails on ties: with two active contacts of priority 1
    stored as Zed, then Amy, the dispatch processes Zed before Amy, which
    is not the order by priority and then name. *)
Lemma dispatch_ties_not_by_name :
  let db := Scenario.db_of [Scenario.zed; Scenario.amy] []
              {[ 7%N := Scenario.alert_in TRIGGERED ]} in
  let db' := snd (DispatchService.dispatch_alert Scenario.strip_of
                    (Scenario.alert_in TRIGGERED) (Scenario.at_second 5) db) in
  contacts_processed db db' = [Scenario.zed; Scenario.amy]
  /\ ~ Sorted by_priority_then_name (contacts_processed db db').
Proof.
  intros db db'.
  assert (Hp : contacts_processed db db' = [Scenario.zed; Scenario.amy])
    by (vm_compute; reflexivity).
  split; [exact Hp|].
  rewrite Hp. intros Hs.
  inversion Hs as [|? ? _ Hhd]; subst.
  inversion Hhd as [|? ? Hrel]; subst.
  destruct Hrel as [Hlt|[_ Hname]].
  - vm_compute in Hlt. discriminate.
  - vm_compute in Hname. discriminate.
Qed.

(** ** The alert state machine *)

Lemma service_cancel_terminal alert reason env db :
  terminal (status alert) = true ->
  AlertService.cancel_alert alert reason env db = (Return (false, alert), db).
Proof.
  unfold terminal, AlertService.cancel_alert. intros ->. done.
Qed.

Lemma service_cancel_non_terminal alert reason env db u p :
  non_terminal (status alert) = true ->
  users db !! user alert = Some u ->
  profiles db !! id u = Some p ->
  let alert' := cancelled (clock env) reason alert in
  exists db',
    AlertService.cancel_alert alert reason env db = (Return (true, alert'), db')
    /\ alerts db' = <[alert_id alert := alert']> (alerts db)
    /\ profiles db' = <[id u := with_is_active_alert false p]> (profiles db)
    /\ status alert' = CANCELLED
    /\ cancelled_at alert' = Some (clock env)
    /\ cancellation_reason alert' = Some reason.
Proof.
  intros Hnt Hu Hp alert'.
  unfold AlertService.cancel_alert, Alert_save, alert_user, user_profile,
    profile_save, AuditLog_objects_create.
  rewrite Hnt. unfold_m. cbn. rewrite Hu. cbn. rewrite Hp.
  eexists. split; [reflexivity|]. done.
Qed.

(** On the service path the result of [cancel_alert] is exactly whether
    the status was non-terminal. *)
Lemma service_cancel_result alert reason env db u p b alert' db' :
  users db !! user alert = Some u ->
  profiles db !! id u = Some p ->
  AlertService.cancel_alert alert reason env db = (Return (b, alert'), db') ->
  b = non_terminal (status alert).
Proof.
  intros Hu Hp Hrun.
  destruct (non_terminal (status alert)) eqn:Hnt.
  - destruct (service_cancel_non_terminal alert reason env db u p Hnt Hu Hp)
      as (db'' & Hrun' & _).
    rewrite Hrun' in Hrun. congruence.
  - rewrite service_cancel_terminal in Hrun by (unfold terminal; by rewrite Hnt).
    congruence.
Qed.

(** C2, the gateway path at a terminal alert: [alert_cancel] for Alice's
    resolved alert is acknowledged with [alert_cancelled], and the stored
    alert becomes [CANCELLED] with the reason and a cancellation time;
    [AlertService.cancel_alert] on the same alert returns false and changes
    nothing. *)
Theorem gateway_cancel_overwrites_terminal
    Decimal_str py_float py_str str_lower haversine_distance :
  let db := Scenario.db_of [] [] {[ 7%N := Scenario.alert_in RESOLVED ]} in
  let env := Scenario.at_second 9 in
  let run := AlertConsumer.receive Decimal_str py_float py_str str_lower
               haversine_distance Scenario.alice 8%N
               (json_object
                  (alert_cancel
                     {| ac_alert_id := Some 7%N; ac_reason := Some "late"%string |}))
               env db in
  fst run = Return [send_alert_cancelled "Alert cancelled successfully" (Some 7%N)]
  /\ alerts (snd run) !! 7%N
     = Some (cancelled 9000000 "late" (Scenario.alert_in RESOLVED))
  /\ AlertService.cancel_alert (Scenario.alert_in RESOLVED) "late" env db
     = (Return (false, Scenario.alert_in RESOLVED), db).
Proof. repeat split; vm_compute; reflexivity. Qed.

(** The gateway cancels whatever alert of its user it is given: no status
    is consulted. *)
Lemma gateway_cancel_unconditional self_user aid alert reason env db p :
  alerts db !! aid = Some alert ->
  user alert = id self_user ->
  profiles db !! id self_user = Some p ->
  exists db',
    AlertConsumer.cancel_alert self_user (Some aid) reason env db = (Return true, db')
    /\ alerts db' = <[alert_id alert := cancelled (clock env) reason alert]> (alerts db).
Proof.
  intros Ha Hown Hp.
  unfold AlertConsumer.cancel_alert, Alert_objects_get_for, Alert_save,
    user_profile, profile_save, AuditLog_objects_create.
  unfold_m. rewrite Ha. rewrite decide_True by done. cbn. rewrite Hp.
  eexists. split; reflexivity.
Qed.

Lemma check_timeout_not_triggered alert env db :
  status alert <> TRIGGERED ->
  AlertService.check_timeout alert env db = (Return (false, alert), db).
Proof.
  intros Hst. unfold AlertService.check_timeout.
  destruct (cancellation_timer_started alert); [|done].
  unfold_m. rewrite (bool_decide_eq_false_2 _ Hst), andb_false_r. done.
Qed.

(** [resolve_alert] writes the resolved alert whatever its status was,
    even when the profile update after the write fails. *)
Lemma resolve_always_saves alert notes env db :
  alerts (snd (AlertService.resolve_alert alert notes env db)) !! alert_id alert
  = Some (resolved (clock env) notes alert).
Proof.
  unfold AlertService.resolve_alert, Alert_save, alert_user, user_profile,
    profile_save, AuditLog_objects_create.
  unfold_m. cbn.
  destruct (users db !! user alert) as [u|]; cbn;
    [destruct (profiles db !! id u); cbn|]; apply lookup_insert_eq.
Qed.

Lemma resolve_returns_true alert notes env db u p :
  users db !! user alert = Some u ->
  profiles db !! id u = Some p ->
  fst (AlertService.resolve_alert alert notes env db)
  = Return (true, resolved (clock env) notes alert).
Proof.
  intros Hu Hp.
  unfold AlertService.resolve_alert, Alert_save, alert_user, user_profile,
    profile_save, AuditLog_objects_create.
  unfold_m. cbn. rewrite Hu. cbn. rewrite Hp. done.
Qed.

(** C3, as the code has it: a terminal alert is left alone by
    [AlertService.cancel_alert] and by [check_timeout], which return false
    and change neither the alert nor the database; [resolve_alert] has no
    guard: on a terminal alert too it stores status [RESOLVED], the current
    time as resolution timestamp and the notes, and returns true. *)
Theorem terminal_guarded_by_cancel_and_timeout alert :
  terminal (status alert) = true ->
  (forall reason env db,
      AlertService.cancel_alert alert reason env db = (Return (false, alert), db))
  /\ (forall env db,
         AlertService.check_timeout alert env db = (Return (false, alert), db))
  /\ (forall notes env db,
         alerts (snd (AlertService.resolve_alert alert notes env db)) !! alert_id alert
         = Some (resolved (clock env) notes alert))
  /\ (forall notes env db u p,
         users db !! user alert = Some u ->
         profiles db !! id u = Some p ->
         fst (AlertService.resolve_alert alert notes env db)
         = Return (true, resolved (clock env) notes alert)).
Proof.
  intros Hterm. repeat split.
  - intros. by apply service_cancel_terminal.
  - intros. apply check_timeout_not_triggered.
    intros Hst. rewrite Hst in Hterm. discriminate.
  - intros. apply resolve_always_saves.
  - intros. by eapply resolve_returns_true.
Qed.

Lemma terminal_guarded_by_cancel_and_timeout_witness :
  let db := Scenario.db_of [] [] {[ 7%N := Scenario.alert_in CANCELLED ]} in
  let env := Scenario.at_second 300 in
  terminal (status (Scenario.alert_in CANCELLED)) = true
  /\ AlertService.cancel_alert (Scenario.alert_in CANCELLED) "again" env db
     = (Return (false, Scenario.alert_in CANCELLED), db)
  /\ AlertService.check_timeout (Scenario.alert_in CANCELLED) env db
     = (Return (false, Scenario.alert_in CANCELLED), db)
  /\ (status <$> alerts (snd (AlertService.resolve_alert
                                (Scenario.alert_in CANCELLED) "late" env db)) !! 7%N)
     = Some RESOLVED.
Proof.
  intros db env.
  destruct (terminal_guarded_by_cancel_and_timeout (Scenario.alert_in CANCELLED))
    as (Hcancel & Htimeout & Hresolve & _); [reflexivity|].
  split; [reflexivity|].
  split; [apply Hcancel|].
  split; [apply Htimeout|].
  change 7%N with (alert_id (Scenario.alert_in CANCELLED)).
  by rewrite Hresolve.
Defined.

(** C3, as stated, fails: resolving Alice's cancelled alert rewrites its
    status, resolution timestamp and notes. *)
Lemma resolve_rewrites_cancelled_alert :
  terminal (status (Scenario.alert_in CANCELLED)) = true
  /\ ~ untouched_by_resolve (Scenario.alert_in CANCELLED) "late"
         (Scenario.at_second 300)
         (Scenario.db_of [] [] {[ 7%N := Scenario.alert_in CANCELLED ]}).
Proof.
  split; [reflexivity|].
  intros H.
  destruct (H (resolved 300000000 "late" (Scenario.alert_in CANCELLED)))
    as [Hst _]; [vm_compute; reflexivity|].
  discriminate.
Qed.

(** C7, as stated, fails: with the clock 60 seconds after the trigger,
    [check_timeout] answers false under settings without a timeout (120
    seconds) and true under a timeout of 30 seconds. *)
Lemma check_timeout_depends_on_settings : ~ timeout_not_ambient.
Proof.
  intros H.
  specialize (H (Scenario.alert_in TRIGGERED) 60000000
                {| ALERT_CANCELLATION_TIMEOUT := None |}
                {| ALERT_CANCELLATION_TIMEOUT := Some 30 |}
                (Scenario.db_of [] [] {[ 7%N := Scenario.alert_in TRIGGERED ]})).
  vm_compute in H. discriminate.
Qed.

(** C7, as the code has it: [check_timeout] takes the alert alone and
    reads the threshold from the settings ([ALERT_CANCELLATION_TIMEOUT],
    120 seconds when undefined).  It returns true, storing the alert as
    [PENDING_CANCEL], exactly when the alert is [TRIGGERED], its timer was
    started and at least that many seconds have passed since; otherwise it
    returns false and changes neither the alert nor the database. *)
Theorem check_timeout_reads_settings alert env db :
  (timer_expired alert env ->
     let alert' := set_updated_at (clock env) (set_status PENDING_CANCEL alert) in
     AlertService.check_timeout alert env db
     = (Return (true, alert'),
        with_alerts (<[alert_id alert := alert']> (alerts db)) db))
  /\ (~ timer_expired alert env ->
        AlertService.check_timeout alert env db = (Return (false, alert), db)).
Proof.
  unfold timer_expired, AlertService.check_timeout, AlertService.total_seconds_ge.
  split.
  - intros (Hst & started & Hstart & Hle).
    rewrite Hstart. unfold_m. unfold Alert_save. unfold_m.
    rewrite (bool_decide_eq_true_2 _ Hst).
    destruct (Z.leb_spec
                (AlertService.getattr_timeout (settings env) * 1000000)
                (clock env - started)); [done|lia].
  - intros Hno.
    destruct (cancellation_timer_started alert) as [started|]; [|done].
    unfold_m.
    destruct (Z.leb_spec
                (AlertService.getattr_timeout (settings env) * 1000000)
                (clock env - started)) as [Hle|Hlt]; [|done].
    destruct (decide (status alert = TRIGGERED)) as [Hst|Hst].
    + exfalso. apply Hno. eauto.
    + by rewrite (bool_decide_eq_false_2 _ Hst).
Qed.

Lemma check_timeout_reads_settings_witness :
  let db := Scenario.db_of [] [] {[ 7%N := Scenario.alert_in TRIGGERED ]} in
  timer_expired (Scenario.alert_in TRIGGERED) (Scenario.at_second 120)
  /\ fst (AlertService.check_timeout
            (Scenario.alert_in TRIGGERED) (Scenario.at_second 120) db)
     = Return (true, set_updated_at 120000000
                       (set_status PENDING_CANCEL (Scenario.alert_in TRIGGERED)))
  /\ ~ timer_expired (Scenario.alert_in TRIGGERED) (Scenario.at_second 119)
  /\ AlertService.check_timeout
       (Scenario.alert_in TRIGGERED) (Scenario.at_second 119) db
     = (Return (false, Scenario.alert_in TRIGGERED), db).
Proof.
  intros db.
  assert (Hyes : timer_expired (Scenario.alert_in TRIGGERED) (Scenario.at_second 120)).
  { split; [reflexivity|]. exists 0. split; [reflexivity|]. vm_compute. discriminate. }
  assert (Hno : ~ timer_expired (Scenario.alert_in TRIGGERED) (Scenario.at_second 119)).
  { unfold timer_expired. intros (_ & started & Hstart & Hle).
    injection Hstart as <-. vm_compute in Hle. by apply Hle. }
  split; [exact Hyes|].
  split.
  - by rewrite (proj1 (check_timeout_reads_settings _ _ db) Hyes).
  - split; [exact Hno|].
    exact (proj2 (check_timeout_reads_settings _ _ db) Hno).
Defined.

(** ** Safe word *)


Lemma safe_word_configured_dec p :
  safe_word_configured p \/ safe_word p = None \/ safe_word p = Some ""%string.
Proof.
  unfold safe_word_configured. destruct (safe_word p) as [[|c w]|].
  - right. by right.
  - left. by eexists.
  - right. by left.
Qed.




(** ** Monitor authorisation *)





(** ** Geofence scan *)

Section Scan.

Variable haversine_distance : Q -> Q -> Q -> Q -> option Q.
Variables latitude longitude : Q.

Let d := zone_distance haversine_distance latitude longitude.









End Scan.


(** With an active zone to look at, the gateway's scan first converts the
    coordinates; when either does not convert it raises. *)
Lemma gateway_check_safe_zone_unconverted py_float haversine_distance lat lon
    zone rest env db :
  py_float lat = None \/ py_float lon = None ->
  AlertConsumer.check_safe_zone_loop py_float haversine_distance lat lon
    (zone :: rest) env db
  = (Raise ValueError, db).
Proof.
  intros Hnone. cbn [AlertConsumer.check_safe_zone_loop].
  unfold AlertConsumer.float. unfold_m.
  destruct (py_float lat); [|done].
  destruct Hnone as [?| ->]; done.
Qed.




(** ** Coordinates that are zero *)

Lemma numerically_zero_falsy v : numerically_zero v = true -> truthy v = false.
Proof.
  destruct v as [|[|]|z|q|s]; cbn; try discriminate; try done; by intros ->.
Qed.

Lemma stored_coordinate_zero Decimal_str v :
  numerically_zero v = true -> stored_coordinate Decimal_str v = None.
Proof.
  intros Hz. unfold stored_coordinate. by rewrite numerically_zero_falsy.
Qed.

Lemma Decimal_if_run Decimal_str v env db :
  convertible Decimal_str v ->
  AlertService.Decimal_if Decimal_str v env db
  = (Return (stored_coordinate Decimal_str v), db).
Proof.
  unfold convertible, AlertService.Decimal_if, stored_coordinate.
  destruct (truthy v); [|done].
  intros H. by destruct (H eq_refl) as [q ->].
Qed.

Lemma Decimal_if_returns Decimal_str v env db r db' :
  AlertService.Decimal_if Decimal_str v env db = (Return r, db') ->
  r = stored_coordinate Decimal_str v /\ db' = db.
Proof.
  unfold AlertService.Decimal_if, stored_coordinate.
  destruct (truthy v); [destruct (Decimal_str v)|]; cbn; intros [= <- <-]; done.
Qed.

Section Trigger.

Variable Decimal_str : pyval -> option Q.
Variable u : User.
Variables (new_id : uuid) (lat lon : pyval) (method : string).
Variables (agent ip : option string) (env : Ambient) (db : DB).

Let row (timer : option datetime) : Alert :=
  triggered_alert new_id u (clock env) method
    (stored_coordinate Decimal_str lat) (stored_coordinate Decimal_str lon)
    timer agent ip.

(** With a fresh key, a profile on file and coordinates that convert, the
    service creates the alert. *)
Lemma service_create_alert_run p :
  alerts db !! new_id = None ->
  profiles db !! id u = Some p ->
  convertible Decimal_str lat ->
  convertible Decimal_str lon ->
  exists db',
    AlertService.create_alert Decimal_str new_id u lat lon method agent ip env db
    = (Return (row (Some (clock env))), db')
    /\ alerts db' = <[new_id := row (Some (clock env))]> (alerts db)
    /\ profiles db' = <[id u := with_is_active_alert true p]> (profiles db).
Proof.
  intros Hfresh Hp Hlat Hlon.
  unfold AlertService.create_alert.
  unfold mbind, M_bind, bind.
  rewrite (Decimal_if_run _ _ _ _ Hlat), (Decimal_if_run _ _ _ _ Hlon).
  unfold Alert_objects_create, user_profile, profile_save, AuditLog_objects_create.
  unfold_m. cbn. rewrite Hfresh. cbn. rewrite Hp.
  eexists. split; [reflexivity|]. done.
Qed.

(** Whenever the service returns an alert, it is that row, stored under
    the new key. *)
Lemma service_create_alert_returns a db' :
  AlertService.create_alert Decimal_str new_id u lat lon method agent ip env db
  = (Return a, db') ->
  a = row (Some (clock env)) /\ alerts db' !! new_id = Some a.
Proof.
  unfold AlertService.create_alert.
  unfold mbind, M_bind, bind.
  destruct (AlertService.Decimal_if Decimal_str lat env db) as [[la|e] db1] eqn:Hla;
    [|discriminate].
  apply Decimal_if_returns in Hla as [-> ->].
  destruct (AlertService.Decimal_if Decimal_str lon env db) as [[lo|e] db1] eqn:Hlo;
    [|discriminate].
  apply Decimal_if_returns in Hlo as [-> ->].
  unfold Alert_objects_create, user_profile, profile_save, AuditLog_objects_create.
  unfold_m. cbn.
  destruct (alerts db !! new_id); [discriminate|]. cbn.
  destruct (profiles db !! id u); [|discriminate].
  intros [= <- <-]. split; [done|]. cbn. apply lookup_insert_eq.
Qed.

Lemma gateway_create_alert_run p :
  alerts db !! new_id = None ->
  profiles db !! id u = Some p ->
  convertible Decimal_str lat ->
  convertible Decimal_str lon ->
  exists db',
    AlertConsumer.create_alert Decimal_str u new_id lat lon method agent ip env db
    = (Return (Some {| ad_alert_id := new_id; ad_status := TRIGGERED;
                       ad_triggered_at := clock env |}), db')
    /\ alerts db' = <[new_id := row None]> (alerts db)
    /\ profiles db' = <[id u := with_is_active_alert true p]> (profiles db).
Proof.
  intros Hfresh Hp Hlat Hlon.
  unfold AlertConsumer.create_alert.
  unfold try_except, mbind, M_bind, bind.
  rewrite (Decimal_if_run _ _ _ _ Hlat), (Decimal_if_run _ _ _ _ Hlon).
  unfold Alert_objects_create, user_profile, profile_save, AuditLog_objects_create.
  unfold_m. cbn. rewrite Hfresh. cbn. rewrite Hp.
  eexists. split; [reflexivity|]. done.
Qed.

(** Whenever the gateway reports a created alert, that row is stored under
    the new key. *)
Lemma gateway_create_alert_returns data db' :
  AlertConsumer.create_alert Decimal_str u new_id lat lon method agent ip env db
  = (Return (Some data), db') ->
  alerts db' !! new_id = Some (row None).
Proof.
  unfold AlertConsumer.create_alert.
  unfold try_except, mbind, M_bind, bind.
  destruct (AlertService.Decimal_if Decimal_str lat env db) as [[la|e] db1] eqn:Hla;
    [|discriminate].
  apply Decimal_if_returns in Hla as [-> ->].
  destruct (AlertService.Decimal_if Decimal_str lon env db) as [[lo|e] db1] eqn:Hlo;
    [|discriminate].
  apply Decimal_if_returns in Hlo as [-> ->].
  unfold Alert_objects_create, user_profile, profile_save, AuditLog_objects_create.
  unfold_m. cbn.
  destruct (alerts db !! new_id); [discriminate|]. cbn.
  destruct (profiles db !! id u); [|discriminate].
  intros [= <- <-]. cbn. apply lookup_insert_eq.
Qed.

End Trigger.

Lemma location_update_missing Decimal_str py_float py_str haversine_distance
    u data env db :
  truthy (lu_latitude data) = false \/ truthy (lu_longitude data) = false ->
  AlertConsumer.handle_location_update Decimal_str py_float py_str
    haversine_distance u data env db
  = (Return [send_error "Missing required location data" None], db).
Proof.
  intros H. unfold AlertConsumer.handle_location_update.
  destruct (lu_alert_id data) as [aid|] eqn:Hid; [|done].
  unfold AlertConsumer.has_location_data. rewrite Hid. cbn.
  destruct H as [-> | ->]; [done|].
  by rewrite andb_false_r.
Qed.

(** C10: a coordinate that is numerically zero counts as absent.  Every
    alert [create_alert] returns, on the service as on the gateway, is
    stored with a null latitude when the latitude given was zero, and
    likewise for the longitude; with a fresh key, the user's profile on file
    and coordinates that convert, both calls do create the alert.  A
    [location_update] whose latitude or longitude is zero is answered with
    the error "Missing required location data" and leaves the database, and
    so the location samples, as they were. *)
Theorem zero_coordinate_is_absent Decimal_str py_float py_str haversine_distance u :
  (forall new_id lat lon method agent ip env db a db',
      AlertService.create_alert Decimal_str new_id u lat lon method agent ip env db
      = (Return a, db') ->
      alerts db' !! new_id = Some a
      /\ (numerically_zero lat = true -> initial_latitude a = None)
      /\ (numerically_zero lon = true -> initial_longitude a = None))
  /\ (forall new_id lat lon method agent ip env db data db',
         AlertConsumer.create_alert Decimal_str u new_id lat lon method agent ip env db
         = (Return (Some data), db') ->
         exists a,
           alerts db' !! new_id = Some a
           /\ (numerically_zero lat = true -> initial_latitude a = None)
           /\ (numerically_zero lon = true -> initial_longitude a = None))
  /\ (forall new_id lat lon method agent ip env db p,
         alerts db !! new_id = None ->
         profiles db !! id u = Some p ->
         convertible Decimal_str lat ->
         convertible Decimal_str lon ->
         (exists a db',
             AlertService.create_alert Decimal_str new_id u lat lon method agent ip env db
             = (Return a, db'))
         /\ (exists data db',
                AlertConsumer.create_alert Decimal_str u new_id lat lon method agent ip
                  env db
                = (Return (Some data), db')))
  /\ (forall data env db,
         numerically_zero (lu_latitude data) = true
         \/ numerically_zero (lu_longitude data) = true ->
         AlertConsumer.handle_location_update Decimal_str py_float py_str
           haversine_distance u data env db
         = (Return [send_error "Missing required location data" None], db)).
Proof.
  split; [|split; [|split]].
  - intros new_id lat lon method agent ip env db a db' Hrun.
    apply service_create_alert_returns in Hrun as [-> Hstored].
    split; [done|]. split; intros Hz; cbn; by apply stored_coordinate_zero.
  - intros new_id lat lon method agent ip env db data db' Hrun.
    apply gateway_create_alert_returns in Hrun.
    eexists. split; [exact Hrun|].
    split; intros Hz; cbn; by apply stored_coordinate_zero.
  - intros new_id lat lon method agent ip env db p Hfresh Hp Hlat Hlon. split.
    + destruct (service_create_alert_run Decimal_str u new_id lat lon method agent ip
                  env db p Hfresh Hp Hlat Hlon) as (db' & Hrun & _).
      eauto.
    + destruct (gateway_create_alert_run Decimal_str u new_id lat lon method agent ip
                  env db p Hfresh Hp Hlat Hlon) as (db' & Hrun & _).
      eauto.
  - intros data env db Hz. apply location_update_missing.
    destruct Hz as [Hz|Hz]; [left|right]; by apply numerically_zero_falsy.
Qed.

Lemma zero_coordinate_is_absent_witness :
  let db := Scenario.db_of [] [] {[ 7%N := Scenario.alert_in TRIGGERED ]} in
  let env := Scenario.at_second 400 in
  (initial_latitude <$>
     alerts (snd (AlertService.create_alert Scenario.decimal_of 8%N Scenario.alice
                    (PyInt 0) (PyFloat (775 # 10)) "panic_button" None None env db))
     !! 8%N) = Some None
  /\ (initial_longitude <$>
        alerts (snd (AlertService.create_alert Scenario.decimal_of 8%N Scenario.alice
                       (PyInt 0) (PyFloat (775 # 10)) "panic_button" None None env db))
        !! 8%N) = Some (Some (775 # 10))
  /\ AlertConsumer.handle_location_update Scenario.decimal_of Scenario.decimal_of
       Scenario.str_of grid_distance Scenario.alice
       (Scenario.location (PyFloat (129 # 10)) (PyFloat 0)) env db
     = (Return [send_error "Missing required location data" None], db).
Proof.
  intros db env.
  destruct (zero_coordinate_is_absent Scenario.decimal_of Scenario.decimal_of
              Scenario.str_of grid_distance Scenario.alice)
    as (Hservice & _ & _ & Hupdate).
  destruct (AlertService.create_alert Scenario.decimal_of 8%N Scenario.alice
              (PyInt 0) (PyFloat (775 # 10)) "panic_button" None None env db)
    as [[a|e] db'] eqn:Hrun; [|vm_compute in Hrun; discriminate].
  destruct (Hservice _ _ _ _ _ _ _ _ _ _ Hrun) as (Hstored & Hlat & _).
  cbn [snd]. rewrite Hstored. cbn [fmap option_fmap option_map].
  split; [by rewrite Hlat|].
  split.
  - vm_compute in Hrun. by injection Hrun as <- _.
  - apply Hupdate. by right.
Defined.

(** ** One active alert per user *)

Lemma filter_Permutation_bool {A} (f : A -> bool) (l l' : list A) :
  l ≡ₚ l' -> List.filter f l ≡ₚ List.filter f l'.
Proof.
  induction 1 as [|x l l' _ IH|x y l|l l' l'' _ IH _ IH']; cbn.
  - done.
  - destruct (f x); by rewrite IH.
  - destruct (f x), (f y); try done. apply Permutation_swap.
  - by rewrite IH.
Qed.

(** Inserting a row under a fresh key adds it to the active alerts of its
    user when its status is non-terminal, and to those of nobody else. *)
Lemma active_alerts_insert_fresh uid a db :
  alerts db !! alert_id a = None ->
  active_alerts_of uid (with_alerts (<[alert_id a := a]> (alerts db)) db)
  ≡ₚ (if is_active_for uid a then [a] else []) ++ active_alerts_of uid db.
Proof.
  intros Hfresh. unfold active_alerts_of. cbn [alerts with_alerts].
  rewrite (filter_Permutation_bool _ _ (a :: (map_to_list (alerts db)).*2)).
  - cbn. by destruct (is_active_for uid a).
  - rewrite (map_to_list_insert _ _ _ Hfresh). done.
Qed.

Lemma first_alert_nil l : first_alert l = None <-> l = [].
Proof.
  split; [|by intros ->].
  destruct l as [|a l]; [done|]. cbn.
  destruct (foldr _ None l) as [b|]; [|done].
  by destruct (triggered_at a <? triggered_at b).
Qed.

Lemma first_alert_latest l a :
  first_alert l = Some a -> forall b, b ∈ l -> triggered_at b <= triggered_at a.
Proof.
  revert a. induction l as [|c l IH]; intros a; cbn [first_alert foldr];
    [discriminate|].
  fold (first_alert l). destruct (first_alert l) as [a0|] eqn:Hfirst.
  - destruct (Z.ltb_spec (triggered_at c) (triggered_at a0)) as [Hlt|Hge];
      intros [= <-] b [->|Hin]%elem_of_cons;
      [lia|by apply IH|lia|].
    specialize (IH a0 eq_refl b Hin). lia.
  - apply first_alert_nil in Hfirst as ->.
    intros [= <-] b [->|Hin]%elem_of_cons; [lia|].
    by apply elem_of_nil in Hin.
Qed.

Lemma first_alert_elem l a : first_alert l = Some a -> a ∈ l.
Proof.
  revert a. induction l as [|x l IH]; intros a; [done|]. cbn.
  fold (first_alert l).
  destruct (first_alert l) as [b|].
  - destruct (triggered_at x <? triggered_at b); intros [= <-].
    + right. by apply IH.
    + left.
  - intros [= <-]. left.
Qed.

Section View.

Variable Decimal_str : pyval -> option Q.
Variable u : User.
Variables (new_id : uuid) (data : AlertTrigger).
Variables (agent ip : option string) (env : Ambient) (db : DB).

(** The view refuses a trigger while the user has a non-terminal alert,
    and writes nothing. *)
Lemma trigger_alert_view_conflict :
  active_alerts_of (id u) db <> [] ->
  exists a,
    a ∈ active_alerts_of (id u) db
    /\ Views.trigger_alert_view Decimal_str u new_id data agent ip env db
       = (Return (already_active (alert_id a)), db).
Proof.
  intros Hactive. unfold Views.trigger_alert_view. unfold_m.
  destruct (first_alert (active_alerts_of (id u) db)) as [a|] eqn:Hfirst.
  - exists a. split; [by apply first_alert_elem|done].
  - by apply first_alert_nil in Hfirst.
Qed.

(** Whatever the view answers, it leaves no user with more active alerts
    than one, provided that held before. *)
Lemma trigger_alert_view_keeps_one_active :
  one_active_alert_per_user db ->
  one_active_alert_per_user
    (snd (Views.trigger_alert_view Decimal_str u new_id data agent ip env db)).
Proof.
  intros Hinv. unfold Views.trigger_alert_view.
  unfold try_except, mbind, M_bind, bind, read_db.
  destruct (first_alert (active_alerts_of (id u) db)) as [a|] eqn:Hfirst;
    [exact Hinv|].
  apply first_alert_nil in Hfirst.
  unfold AlertService.create_alert.
  unfold mbind, M_bind, bind.
  destruct (AlertService.Decimal_if Decimal_str (at_latitude data) env db)
    as [[la|e] db1] eqn:Hla;
    [apply Decimal_if_returns in Hla as [-> ->]
    |unfold AlertService.Decimal_if in Hla;
     destruct (truthy _); [destruct (Decimal_str _)|];
     cbn in Hla; injection Hla as _ <-; exact Hinv].
  destruct (AlertService.Decimal_if Decimal_str (at_longitude data) env db)
    as [[lo|e] db1] eqn:Hlo;
    [apply Decimal_if_returns in Hlo as [-> ->]
    |unfold AlertService.Decimal_if in Hlo;
     destruct (truthy _); [destruct (Decimal_str _)|];
     cbn in Hlo; injection Hlo as _ <-; exact Hinv].
  unfold Alert_objects_create, user_profile, profile_save, AuditLog_objects_create.
  unfold_m. cbn.
  destruct (alerts db !! new_id) eqn:Hfresh; [exact Hinv|]. cbn.
  set (a := {| alert_id := new_id |}).
  assert (Hcount : forall uid db',
             alerts db' = <[new_id := a]> (alerts db) ->
             (length (active_alerts_of uid db') <= 1)%nat).
  { intros uid db' Halerts.
    assert (Hperm : active_alerts_of uid db'
                    ≡ₚ (if is_active_for uid a then [a] else [])
                       ++ active_alerts_of uid db).
    { rewrite <- (active_alerts_insert_fresh uid a db Hfresh).
      unfold active_alerts_of. cbn [alerts with_alerts]. by rewrite Halerts. }
    rewrite Hperm, length_app.
    destruct (is_active_for uid a) eqn:Hact.
    - apply andb_true_iff in Hact as [Huid _].
      apply bool_decide_eq_true_1 in Huid. cbn in Huid. subst uid.
      rewrite Hfirst. cbn. lia.
    - apply Hinv. }
  destruct (profiles db !! id u); cbn; intros uid; by apply Hcount.
Qed.

End View.

(** C1 at the gateway: two [alert_trigger] messages from Alice, one second
    apart, are both acknowledged with [alert_triggered]; afterwards she has
    two alerts in status [TRIGGERED], so the invariant that held before is
    lost.  The view refuses the second trigger in the same state. *)
Theorem gateway_trigger_twice_two_active
    Decimal_str py_float py_str str_lower haversine_distance :
  let db := Scenario.db_of [] [] ∅ in
  let receive := AlertConsumer.receive Decimal_str py_float py_str str_lower
                   haversine_distance Scenario.alice in
  let run1 := receive 7%N (json_object (alert_trigger Scenario.panic)) (Scenario.at_second 0) db in
  let run2 := receive 8%N (json_object (alert_trigger Scenario.panic)) (Scenario.at_second 1)
                (snd run1) in
  one_active_alert_per_user db
  /\ fst run1 = Return [send_alert_triggered
                          {| ad_alert_id := 7%N; ad_status := TRIGGERED;
                             ad_triggered_at := 0 |}]
  /\ fst run2 = Return [send_alert_triggered
                          {| ad_alert_id := 8%N; ad_status := TRIGGERED;
                             ad_triggered_at := 1000000 |}]
  /\ ((fun a => (user a, status a)) <$> alerts (snd run2) !! 7%N)
     = Some (1%N, TRIGGERED)
  /\ ((fun a => (user a, status a)) <$> alerts (snd run2) !! 8%N)
     = Some (1%N, TRIGGERED)
  /\ length (active_alerts_of 1%N (snd run2)) = 2%nat
  /\ ~ one_active_alert_per_user (snd run2)
  /\ Views.trigger_alert_view Decimal_str Scenario.alice 8%N Scenario.panic None None
       (Scenario.at_second 1) (snd run1)
     = (Return (already_active 7%N), snd run1).
Proof.
  intros db receive run1 run2.
  split.
  { intros uid. unfold active_alerts_of, db, Scenario.db_of. cbn [alerts].
    rewrite map_to_list_empty. cbn. lia. }
  split; [reflexivity|]. split; [reflexivity|].
  split; [reflexivity|]. split; [reflexivity|].
  assert (Hactive : length (active_alerts_of 1%N (snd run2)) = 2%nat)
    by (vm_compute; reflexivity).
  split; [exact Hactive|]. split.
  - intros Hinv. specialize (Hinv 1%N). rewrite Hactive in Hinv. lia.
  - vm_compute. reflexivity.
Qed.

(** * Further properties of the services, the gateway and the views *)

Lemma active_alerts_of_ext uid db1 db2 :
  alerts db1 = alerts db2 -> active_alerts_of uid db1 = active_alerts_of uid db2.
Proof. unfold active_alerts_of. by intros ->. Qed.

(** The database [AlertService.create_alert] leaves when it succeeds. *)
Lemma service_create_alert_db Decimal_str u new_id lat lon method agent ip env db p :
  alerts db !! new_id = None ->
  profiles db !! id u = Some p ->
  convertible Decimal_str lat ->
  convertible Decimal_str lon ->
  let row := triggered_alert new_id u (clock env) method
               (stored_coordinate Decimal_str lat) (stored_coordinate Decimal_str lon)
               (Some (clock env)) agent ip in
  AlertService.create_alert Decimal_str new_id u lat lon method agent ip env db
  = (Return row,
     with_audit_logs
       (audit_logs db
          ++ [audit_row u new_id ALERT_TRIGGERED
                ("Alert triggered via " ++ method)%string (clock env)])
       (with_profiles (<[id u := with_is_active_alert true p]> (profiles db))
          (with_alerts (<[new_id := row]> (alerts db)) db))).
Proof.
  intros Hfresh Hp Hlat Hlon row.
  unfold AlertService.create_alert.
  unfold mbind, M_bind, bind.
  rewrite (Decimal_if_run _ _ _ _ Hlat), (Decimal_if_run _ _ _ _ Hlon).
  unfold Alert_objects_create, user_profile, profile_save, AuditLog_objects_create.
  unfold_m. cbn. rewrite Hfresh. cbn. rewrite Hp. done.
Qed.

(** X1: [trigger_alert_view] keeps the rule of one active alert per user,
    whatever it is sent and however it ends.  While the user has an active
    alert the query of the view finds one of them, the latest; when that row
    can be read back, the view answers "already active" with its identifier
    and writes nothing. *)
Theorem view_trigger_guarded Decimal_str u new_id data agent ip env db :
  one_active_alert_per_user db ->
  let run := Views.trigger_alert_view Decimal_str u new_id data agent ip env db in
  one_active_alert_per_user (snd run)
  /\ (active_alerts_of (id u) db <> [] ->
      exists a,
        first_alert (active_alerts_of (id u) db) = Some a
        /\ a ∈ active_alerts_of (id u) db
        /\ (forall b, b ∈ active_alerts_of (id u) db ->
                      triggered_at b <= triggered_at a)
        /\ (readable a -> run = (Return (already_active (alert_id a)), db))).
Proof.
  intros Hinv run. split.
  - by apply trigger_alert_view_keeps_one_active.
  - intros Hactive.
    destruct (first_alert (active_alerts_of (id u) db)) as [a|] eqn:Hfirst;
      [|by apply first_alert_nil in Hfirst].
    exists a. split; [done|]. split; [by apply first_alert_elem|].
    split; [by apply first_alert_latest|].
    intros _. subst run. unfold Views.trigger_alert_view. unfold_m.
    by rewrite Hfirst.
Qed.

Lemma view_trigger_guarded_witness :
  let db := Scenario.db_of [] [] {[ 7%N := Scenario.alert_in DISPATCHED ]} in
  one_active_alert_per_user db
  /\ readable (Scenario.alert_in DISPATCHED)
  /\ Views.trigger_alert_view Scenario.decimal_of Scenario.alice 8%N Scenario.panic
       None None (Scenario.at_second 30) db
     = (Return (already_active 7%N), db).
Proof.
  intros db.
  assert (Hinv : one_active_alert_per_user db).
  { intros uid. unfold active_alerts_of, db, Scenario.db_of. cbn [alerts].
    rewrite map_to_list_singleton. cbn. destruct (is_active_for uid _); cbn; lia. }
  assert (Hreadable : readable (Scenario.alert_in DISPATCHED))
    by (split; intros q; discriminate).
  split; [exact Hinv|]. split; [exact Hreadable|].
  destruct (view_trigger_guarded Scenario.decimal_of Scenario.alice 8%N
              Scenario.panic None None (Scenario.at_second 30) db Hinv)
    as [_ Hrefuse].
  destruct Hrefuse as (a & Hfirst & _ & _ & Hrun); [discriminate|].
  assert (a = Scenario.alert_in DISPATCHED) as ->.
  { unfold active_alerts_of, db, Scenario.db_of in Hfirst. cbn [alerts] in Hfirst.
    rewrite map_to_list_singleton in Hfirst. by injection Hfirst as <-. }
  exact (Hrun Hreadable).
Defined.

Lemma view_trigger_run Decimal_str u new_id data agent ip env db p :
  active_alerts_of (id u) db = [] ->
  alerts db !! new_id = None ->
  profiles db !! id u = Some p ->
  convertible Decimal_str (at_latitude data) ->
  convertible Decimal_str (at_longitude data) ->
  exists db' a,
    Views.trigger_alert_view Decimal_str u new_id data agent ip env db
    = (Return (alert_triggered new_id TRIGGERED), db')
    /\ active_alerts_of (id u) db' = [a]
    /\ alerts db' !! new_id = Some a
    /\ status a = TRIGGERED
    /\ cancellation_timer_started a = Some (clock env)
    /\ profiles db' !! id u = Some (with_is_active_alert true p)
    /\ audit_logs db'
       = audit_logs db
         ++ [audit_row u new_id ALERT_TRIGGERED
               ("Alert triggered via "
                ++ default "panic_button" (at_trigger_method data))%string
               (clock env)].
Proof.
  intros Hnone Hfresh Hp Hlat Hlon.
  unfold Views.trigger_alert_view.
  unfold try_except, mbind, M_bind, bind, read_db.
  rewrite Hnone. cbn [first_alert foldr].
  rewrite (service_create_alert_db Decimal_str u new_id _ _ _ agent ip env db p
             Hfresh Hp Hlat Hlon).
  set (row := triggered_alert new_id u (clock env) _ _ _ _ agent ip).
  eexists _, row. split; [reflexivity|].
  split; [|split; [apply lookup_insert_eq|split; [done|split; [done|split]]]].
  - rewrite (active_alerts_of_ext _ _
               (with_alerts (<[alert_id row := row]> (alerts db)) db)) by done.
    apply Permutation_singleton_r.
    rewrite (active_alerts_insert_fresh (id u) row db) by exact Hfresh.
    rewrite Hnone, app_nil_r. unfold is_active_for. cbn.
    by rewrite bool_decide_eq_true_2.
  - cbn. apply lookup_insert_eq.
  - done.
Qed.

(** The row the view stores when it answers "triggered". *)
Lemma view_trigger_stores Decimal_str u new_id data agent ip env db p :
  active_alerts_of (id u) db = [] ->
  alerts db !! new_id = None ->
  profiles db !! id u = Some p ->
  convertible Decimal_str (at_latitude data) ->
  convertible Decimal_str (at_longitude data) ->
  let row := triggered_alert new_id u (clock env)
               (default "panic_button" (at_trigger_method data))
               (stored_coordinate Decimal_str (at_latitude data))
               (stored_coordinate Decimal_str (at_longitude data))
               (Some (clock env)) agent ip in
  exists db',
    Views.trigger_alert_view Decimal_str u new_id data agent ip env db
    = (Return (alert_triggered new_id TRIGGERED), db')
    /\ active_alerts_of (id u) db' = [row]
    /\ alerts db' !! new_id = Some row
    /\ profiles db' !! id u = Some (with_is_active_alert true p).
Proof.
  intros Hnone Hfresh Hp Hlat Hlon row.
  unfold Views.trigger_alert_view.
  unfold try_except, mbind, M_bind, bind, read_db.
  rewrite Hnone. cbn [first_alert foldr].
  rewrite (service_create_alert_db Decimal_str u new_id _ _ _ agent ip env db p
             Hfresh Hp Hlat Hlon).
  eexists. split; [reflexivity|].
  split; [|split; [apply lookup_insert_eq|cbn; apply lookup_insert_eq]].
  rewrite (active_alerts_of_ext _ _
             (with_alerts (<[alert_id row := row]> (alerts db)) db)) by done.
  apply Permutation_singleton_r.
  rewrite (active_alerts_insert_fresh (id u) row db) by exact Hfresh.
  rewrite Hnone, app_nil_r. unfold is_active_for. cbn.
  by rewrite bool_decide_eq_true_2.
Qed.

(** X2: when the user has no active alert, the key is new, the profile is
    on file and the coordinates convert, [trigger_alert_view] answers
    "triggered"; the user then has exactly one active alert, in status
    [TRIGGERED] with its cancellation timer started at the current time; the
    profile is flagged as having an active alert; one [ALERT_TRIGGERED] audit
    row is appended. *)
Theorem view_trigger_creates_single_active
    Decimal_str u new_id data agent ip env db p :
  active_alerts_of (id u) db = [] ->
  alerts db !! new_id = None ->
  profiles db !! id u = Some p ->
  convertible Decimal_str (at_latitude data) ->
  convertible Decimal_str (at_longitude data) ->
  exists db' a,
    Views.trigger_alert_view Decimal_str u new_id data agent ip env db
    = (Return (alert_triggered new_id TRIGGERED), db')
    /\ active_alerts_of (id u) db' = [a]
    /\ alerts db' !! new_id = Some a
    /\ status a = TRIGGERED
    /\ cancellation_timer_started a = Some (clock env)
    /\ profiles db' !! id u = Some (with_is_active_alert true p)
    /\ audit_logs db'
       = audit_logs db
         ++ [audit_row u new_id ALERT_TRIGGERED
               ("Alert triggered via "
                ++ default "panic_button" (at_trigger_method data))%string
               (clock env)].
Proof. apply view_trigger_run. Qed.

Lemma view_trigger_creates_single_active_witness :
  let db := Scenario.db_of [] [] {[ 7%N := Scenario.alert_in CANCELLED ]} in
  exists db' a,
    Views.trigger_alert_view Scenario.decimal_of Scenario.alice 8%N Scenario.panic
      None None (Scenario.at_second 30) db
    = (Return (alert_triggered 8%N TRIGGERED), db')
    /\ active_alerts_of 1%N db' = [a]
    /\ cancellation_timer_started a = Some 30000000.
Proof.
  intros db.
  destruct (view_trigger_creates_single_active Scenario.decimal_of Scenario.alice
              8%N Scenario.panic None None (Scenario.at_second 30) db
              {| safe_word := Some "Blue42"%string; is_active_alert := false |})
    as (db' & a & Hrun & Hactive & _ & _ & Htimer & _);
    [reflexivity|reflexivity|reflexivity|discriminate|discriminate|].
  exists db', a. by rewrite Hrun.
Defined.

(** ** The cancel and dispatch endpoints *)

Section Endpoints.

Variable str_strip : string -> string.
Variable u : User.
Variables (env : Ambient) (db : DB).

Lemma get_for_missing aid :
  alerts db !! aid = None ->
  Alert_objects_get_for aid u env db = (Raise DoesNotExist, db).
Proof. intros H. unfold Alert_objects_get_for. unfold_m. by rewrite H. Qed.

Lemma get_for_foreign aid a :
  alerts db !! aid = Some a ->
  user a <> id u ->
  Alert_objects_get_for aid u env db = (Raise DoesNotExist, db).
Proof.
  intros H Hne. unfold Alert_objects_get_for. unfold_m. rewrite H.
  by rewrite decide_False.
Qed.

Lemma get_for_own aid a :
  alerts db !! aid = Some a ->
  user a = id u ->
  Alert_objects_get_for aid u env db = (Return a, db).
Proof.
  intros H Hown. unfold Alert_objects_get_for. unfold_m. rewrite H.
  by rewrite decide_True.
Qed.





(** The result and the database [dispatch_alert] leaves when the owner has
    an active contact. *)
Lemma dispatch_alert_run alert owner :
  users db !! user alert = Some owner ->
  active_contacts_of (id owner) db <> [] ->
  let contacts := order_by_priority (active_contacts_of (id owner) db) in
  let n := Z.of_nat (length contacts) in
  let logs := flat_map (logs_for str_strip alert owner (clock env)) contacts in
  DispatchService.dispatch_alert str_strip alert env db
  = (Return
       ({| DispatchService.success := true;
           DispatchService.result_message := None;
           DispatchService.result_contacts_notified := n;
           DispatchService.result_dispatch_logs :=
             map (fun l => (contact_name (log_contact l), log_channel l, log_status l))
               logs |},
        dispatched (clock env) n alert),
     with_audit_logs
       (audit_logs db
          ++ [audit_row owner (alert_id alert) ALERT_DISPATCHED
                ("Alert dispatched to " ++ pretty n ++ " contacts")%string
                (clock env)])
       (with_alerts (<[alert_id alert := dispatched (clock env) n alert]> (alerts db))
          (with_dispatch_logs (dispatch_logs db ++ logs) db))).
Proof.
  intros Hu Hsome contacts n logs.
  assert (Hne : contacts <> [])
    by (subst contacts; by rewrite order_by_priority_nil).
  unfold DispatchService.dispatch_alert, alert_user.
  unfold_m. rewrite Hu. fold contacts.
  subst logs n. clearbody contacts.
  destruct contacts as [|c cs]; [done|].
  rewrite (dispatch_loop_run str_strip alert owner env (c :: cs) db [] 0 Hu).
  unfold Alert_save, AuditLog_objects_create. unfold_m.
  cbn [app]. rewrite Z.add_0_l. done.
Qed.



End Endpoints.









(** ** Timers, and triggering again *)

Lemma check_timeout_triggered a started env db :
  status a = TRIGGERED ->
  cancellation_timer_started a = Some started ->
  AlertService.check_timeout a env db
  = if AlertService.getattr_timeout (settings env) * 1000000 <=? clock env - started
    then (Return (true, set_updated_at (clock env) (set_status PENDING_CANCEL a)),
          with_alerts
            (<[alert_id a := set_updated_at (clock env) (set_status PENDING_CANCEL a)]>
               (alerts db)) db)
    else (Return (false, a), db).
Proof.
  intros Hst Hstart.
  unfold AlertService.check_timeout, AlertService.total_seconds_ge, Alert_save.
  rewrite Hstart. unfold_m. rewrite (bool_decide_eq_true_2 _ Hst), andb_true_r.
  by destruct (_ <=? _).
Qed.

(** X7: an alert the gateway creates never times out.
    [AlertConsumer.create_alert] stores it without a cancellation timer, and
    on such an alert [check_timeout] answers false and writes nothing, at any
    later time and under any settings. *)
Theorem gateway_alert_never_times_out
    Decimal_str u new_id lat lon method agent ip env db p :
  alerts db !! new_id = None ->
  profiles db !! id u = Some p ->
  convertible Decimal_str lat ->
  convertible Decimal_str lon ->
  exists data db' a,
    AlertConsumer.create_alert Decimal_str u new_id lat lon method agent ip env db
    = (Return (Some data), db')
    /\ alerts db' !! new_id = Some a
    /\ status a = TRIGGERED
    /\ forall env' db'',
         AlertService.check_timeout a env' db'' = (Return (false, a), db'').
Proof.
  intros Hfresh Hp Hlat Hlon.
  destruct (gateway_create_alert_run Decimal_str u new_id lat lon method agent ip
              env db p Hfresh Hp Hlat Hlon) as (db' & Hrun & Halerts & _).
  eexists _, db', _. split; [exact Hrun|].
  split; [rewrite Halerts; apply lookup_insert_eq|]. split; [done|].
  intros env' db''. reflexivity.
Qed.

Lemma gateway_alert_never_times_out_witness :
  let db := Scenario.db_of [] [] ∅ in
  exists data db' a,
    AlertConsumer.create_alert Scenario.decimal_of Scenario.alice 7%N
      (PyFloat (129 # 10)) (PyFloat (775 # 10)) "panic_button" None None
      (Scenario.at_second 0) db
    = (Return (Some data), db')
    /\ alerts db' !! 7%N = Some a
    /\ AlertService.check_timeout a (Scenario.at_second 100000) db'
       = (Return (false, a), db').
Proof.
  intros db.
  destruct (gateway_alert_never_times_out Scenario.decimal_of Scenario.alice 7%N
              (PyFloat (129 # 10)) (PyFloat (775 # 10)) "panic_button" None None
              (Scenario.at_second 0) db
              {| safe_word := Some "Blue42"%string; is_active_alert := false |})
    as (data & db' & a & Hrun & Hstored & _ & Hnever);
    [reflexivity|reflexivity|by eexists|by eexists|].
  exists data, db', a. split; [exact Hrun|]. split; [exact Hstored|apply Hnever].
Defined.

(** X8: an alert the service creates times out exactly when the configured
    timeout has passed since its creation: [check_timeout] on the alert
    [create_alert] returned answers false, writing nothing, while less than
    [ALERT_CANCELLATION_TIMEOUT] seconds have passed, and from then on answers
    true and stores the alert as [PENDING_CANCEL]. *)
Theorem service_alert_times_out
    Decimal_str u new_id lat lon method agent ip env db p :
  alerts db !! new_id = None ->
  profiles db !! id u = Some p ->
  convertible Decimal_str lat ->
  convertible Decimal_str lon ->
  exists a db',
    AlertService.create_alert Decimal_str new_id u lat lon method agent ip env db
    = (Return a, db')
    /\ alerts db' !! new_id = Some a
    /\ forall env' db'',
         let timeout := AlertService.getattr_timeout (settings env') * 1000000 in
         (clock env' < clock env + timeout ->
          AlertService.check_timeout a env' db'' = (Return (false, a), db''))
         /\ (clock env + timeout <= clock env' ->
             exists a',
               AlertService.check_timeout a env' db''
               = (Return (true, a'),
                  with_alerts (<[new_id := a']> (alerts db'')) db'')
               /\ status a' = PENDING_CANCEL).
Proof.
  intros Hfresh Hp Hlat Hlon.
  rewrite (service_create_alert_db Decimal_str u new_id lat lon method agent ip
             env db p Hfresh Hp Hlat Hlon).
  eexists _, _. split; [reflexivity|].
  split; [cbn; apply lookup_insert_eq|].
  intros env' db'' timeout.
  rewrite (check_timeout_triggered _ (clock env) env' db'') by done.
  fold timeout. split; intros Hclock.
  - destruct (Z.leb_spec timeout (clock env' - clock env)); [lia|done].
  - destruct (Z.leb_spec timeout (clock env' - clock env)); [|lia].
    eexists. split; [reflexivity|done].
Qed.

Lemma service_alert_times_out_witness :
  let db := Scenario.db_of [] [] ∅ in
  exists a db',
    AlertService.create_alert Scenario.decimal_of 7%N Scenario.alice
      PyNone PyNone "panic_button" None None (Scenario.at_second 10) db
    = (Return a, db')
    /\ AlertService.check_timeout a (Scenario.at_second 129) db'
       = (Return (false, a), db')
    /\ exists a',
         fst (AlertService.check_timeout a (Scenario.at_second 130) db')
         = Return (true, a').
Proof.
  intros db.
  destruct (service_alert_times_out Scenario.decimal_of Scenario.alice 7%N
              PyNone PyNone "panic_button" None None (Scenario.at_second 10) db
              {| safe_word := Some "Blue42"%string; is_active_alert := false |})
    as (a & db' & Hrun & _ & Htimer);
    [reflexivity|reflexivity|discriminate|discriminate|].
  exists a, db'. split; [exact Hrun|]. split.
  - apply (proj1 (Htimer (Scenario.at_second 129) db')). reflexivity.
  - destruct (proj2 (Htimer (Scenario.at_second 130) db')) as (a' & Hyes & _).
    + vm_compute. discriminate.
    + exists a'. by rewrite Hyes.
Defined.






(** ** A user without profile *)



(** ** The gateway *)

Section Gateway.

Variable Decimal_str : pyval -> option Q.
Variable py_float : pyval -> option Q.
Variable py_str : pyval -> string.
Variable str_lower : string -> string.
Variable haversine_distance : Q -> Q -> Q -> Q -> option Q.
Variable u : User.

Let receive := AlertConsumer.receive Decimal_str py_float py_str str_lower haversine_distance u.
Let save_location_track :=
  AlertConsumer.save_location_track Decimal_str py_float py_str haversine_distance u.

(** The geofence check of the gateway reads the database and never writes
    it, also when a conversion fails. *)
Lemma check_safe_zone_loop_reads lat lon zones env db :
  snd (AlertConsumer.check_safe_zone_loop py_float haversine_distance lat lon zones
         env db) = db.
Proof.
  induction zones as [|zone rest IH]; [done|].
  cbn [AlertConsumer.check_safe_zone_loop]. unfold AlertConsumer.float. unfold_m.
  destruct (py_float lat); [|done]. destruct (py_float lon); [|done].
  destruct (haversine_distance _ _ _ _); [|done].
  destruct (Qle_bool _ _); [done|apply IH].
Qed.

(** A reading goes into its float column as [stored_reading] says, or the
    conversion raises; nothing is written either way. *)
Lemma float_column_storable v env db :
  storable py_float v ->
  AlertConsumer.float_column py_float v env db
  = (Return (stored_reading py_float v), db).
Proof.
  unfold AlertConsumer.float_column, AlertConsumer.float, stored_reading.
  unfold_m. intros [->|[x Hx]]; [done|].
  destruct v; [done|by rewrite Hx..].
Qed.

Lemma float_column_not_storable v env db :
  ~ storable py_float v ->
  AlertConsumer.float_column py_float v env db = (Raise ValueError, db).
Proof.
  unfold AlertConsumer.float_column, AlertConsumer.float, storable.
  unfold_m. intros Hnot.
  assert (Hnone : py_float v = None).
  { destruct (py_float v) eqn:Hv; [|done]. exfalso. apply Hnot. right. by eexists. }
  destruct v; [exfalso; apply Hnot; by left|by rewrite Hnone..].
Qed.

Lemma storable_dec v : storable py_float v \/ ~ storable py_float v.
Proof.
  unfold storable. destruct v; [left; by left|..];
    (destruct (py_float _) eqn:Hv;
     [left; right; by eexists
     |right; intros [?|[? ?]]; congruence]).
Qed.

Lemma readings_storable_dec acc alt spd hdg :
  let all := storable py_float acc /\ storable py_float alt
             /\ storable py_float spd /\ storable py_float hdg in
  all \/ ~ all.
Proof.
  cbv zeta.
  destruct (storable_dec acc), (storable_dec alt), (storable_dec spd),
    (storable_dec hdg); tauto.
Qed.

(** [LocationTrack.objects.create] inserts the row once the four readings
    have gone into their columns, and raises without writing when one of
    them cannot. *)
Lemma LocationTrack_objects_create_storable a dlat dlon acc alt spd hdg inside zone
    env db :
  storable py_float acc -> storable py_float alt ->
  storable py_float spd -> storable py_float hdg ->
  let row := location_row db a (clock env) dlat dlon
               (stored_reading py_float acc) (stored_reading py_float alt)
               (stored_reading py_float spd) (stored_reading py_float hdg)
               inside zone in
  AlertConsumer.LocationTrack_objects_create py_float a dlat dlon acc alt spd hdg
    inside zone env db
  = (Return row, with_location_tracks (location_tracks db ++ [row]) db).
Proof.
  intros Hacc Halt Hspd Hhdg row.
  unfold AlertConsumer.LocationTrack_objects_create.
  unfold mbind, M_bind, bind.
  rewrite (float_column_storable _ _ _ Hacc), (float_column_storable _ _ _ Halt),
    (float_column_storable _ _ _ Hspd), (float_column_storable _ _ _ Hhdg).
  by unfold_m.
Qed.

Lemma LocationTrack_objects_create_not_storable a dlat dlon acc alt spd hdg
    inside zone env db :
  ~ (storable py_float acc /\ storable py_float alt
     /\ storable py_float spd /\ storable py_float hdg) ->
  AlertConsumer.LocationTrack_objects_create py_float a dlat dlon acc alt spd hdg
    inside zone env db
  = (Raise ValueError, db).
Proof.
  intros Hnot.
  unfold AlertConsumer.LocationTrack_objects_create.
  unfold mbind, M_bind, bind.
  destruct (storable_dec acc) as [Hacc|Hacc];
    [rewrite (float_column_storable _ _ _ Hacc)
    |by rewrite (float_column_not_storable _ _ _ Hacc)].
  destruct (storable_dec alt) as [Halt|Halt];
    [rewrite (float_column_storable _ _ _ Halt)
    |by rewrite (float_column_not_storable _ _ _ Halt)].
  destruct (storable_dec spd) as [Hspd|Hspd];
    [rewrite (float_column_storable _ _ _ Hspd)
    |by rewrite (float_column_not_storable _ _ _ Hspd)].
  destruct (storable_dec hdg) as [Hhdg|Hhdg];
    [|by rewrite (float_column_not_storable _ _ _ Hhdg)].
  by destruct Hnot.
Qed.

Lemma check_safe_zone_cases lat lon env db :
  (exists r, AlertConsumer.check_safe_zone py_float haversine_distance u lat lon env db
             = (Return r, db))
  \/ (exists e, AlertConsumer.check_safe_zone py_float haversine_distance u lat lon
                  env db = (Raise e, db)).
Proof.
  unfold AlertConsumer.check_safe_zone. unfold_m.
  pose proof (check_safe_zone_loop_reads lat lon
                (active_zones_of (id u) db) env db) as Hdb.
  destruct (AlertConsumer.check_safe_zone_loop _ _ _ _ _ _ _) as [[r|e] db'].
  - left. exists r. cbn in Hdb. by subst.
  - right. exists e. cbn in Hdb. by subst.
Qed.


(** X12: requests that name an alert which is not the user's are refused
    and change nothing: [alert_cancel] is answered with an error,
    [safe_word_check] with "not valid", and [location_update] with the
    missing-data error or with nothing at all. *)
Theorem gateway_refuses_foreign_alert aid new_id env db :
  not_own_alert u aid db ->
  (forall reason,
      receive new_id (json_object (alert_cancel {| ac_alert_id := Some aid; ac_reason := reason |}))
        env db
      = (Return [send_error "Failed to cancel alert" (Some aid)], db))
  /\ (forall attempt,
         receive new_id
           (json_object (safe_word_check {| sw_alert_id := Some aid; sw_safe_word := attempt |}))
           env db
         = (Return [send_safe_word_result false (Some aid)], db))
  /\ (forall data,
         lu_alert_id data = Some aid ->
         receive new_id (json_object (location_update data)) env db = (Return [], db)
         \/ receive new_id (json_object (location_update data)) env db
            = (Return [send_error "Missing required location data" None], db)).
Proof.
  intros Hnot.
  assert (Hget : Alert_objects_get_for aid u env db = (Raise DoesNotExist, db)).
  { destruct Hnot as [H|(a & H & Hne)];
      [by apply get_for_missing|by eapply get_for_foreign]. }
  subst receive. split; [|split].
  - intros reason. cbn [AlertConsumer.receive].
    unfold AlertConsumer.handle_alert_cancel, AlertConsumer.cancel_alert.
    unfold try_except, mbind, M_bind, bind. cbn [ac_alert_id]. by rewrite Hget.
  - intros attempt. cbn [AlertConsumer.receive].
    unfold AlertConsumer.handle_safe_word_check, AlertConsumer.verify_safe_word.
    unfold try_except, mbind, M_bind, bind. cbn [sw_alert_id]. by rewrite Hget.
  - intros data Hid. cbn [AlertConsumer.receive].
    unfold AlertConsumer.handle_location_update. rewrite Hid.
    destruct (AlertConsumer.has_location_data data); [left|by right].
    unfold AlertConsumer.save_location_track.
    unfold try_except, mbind, M_bind, bind. by rewrite Hget.
Qed.

End Gateway.

Lemma gateway_refuses_foreign_alert_witness :
  let db := Scenario.db_of [] [] {[ 7%N := Scenario.alert_in TRIGGERED ]} in
  let env := Scenario.at_second 40 in
  not_own_alert Scenario.bob 7%N db
  /\ AlertConsumer.receive Scenario.decimal_of Scenario.decimal_of Scenario.str_of Scenario.lower_of
       grid_distance Scenario.bob 9%N
       (json_object (alert_cancel {| ac_alert_id := Some 7%N; ac_reason := None |})) env db
     = (Return [send_error "Failed to cancel alert" (Some 7%N)], db).
Proof.
  intros db env.
  assert (Hnot : not_own_alert Scenario.bob 7%N db).
  { right. exists (Scenario.alert_in TRIGGERED). split; [reflexivity|discriminate]. }
  split; [exact Hnot|].
  apply (gateway_refuses_foreign_alert Scenario.decimal_of Scenario.decimal_of
           Scenario.str_of Scenario.lower_of grid_distance Scenario.bob 7%N 9%N env db Hnot).
Defined.

Section GatewayFrames.

Variable Decimal_str : pyval -> option Q.
Variable py_float : pyval -> option Q.
Variable py_str : pyval -> string.
Variable str_lower : string -> string.
Variable haversine_distance : Q -> Q -> Q -> Q -> option Q.
Variable u : User.

Let receive := AlertConsumer.receive Decimal_str py_float py_str str_lower haversine_distance u.



End GatewayFrames.



(** ** Monitors *)

(** X15: the latest location [get_alert_data] reports is a row of that
    alert with the greatest timestamp among the rows of that alert; there is
    none exactly when the alert has no location row. *)
Theorem latest_track_is_latest aid db :
  match MonitorConsumer.latest_track aid db with
  | Some t =>
      t ∈ location_tracks db
      /\ track_alert t = aid
      /\ forall t', t' ∈ location_tracks db -> track_alert t' = aid ->
                    timestamp t' <= timestamp t
  | None => forall t, t ∈ location_tracks db -> track_alert t <> aid
  end.
Proof.
  unfold MonitorConsumer.latest_track.
  induction (location_tracks db) as [|t l IH]; cbn [foldr].
  - intros t Hin. by apply elem_of_nil in Hin.
  - destruct (decide (track_alert t = aid)) as [Ht|Ht].
    + rewrite (bool_decide_eq_true_2 _ Ht).
      destruct (foldr _ None l) as [t0|].
      * destruct IH as (Hin & Halert & Hmax).
        destruct (Z.ltb_spec (timestamp t) (timestamp t0)) as [Hlt|Hge].
        -- split; [by right|]. split; [done|].
           intros t' [->|Hin']%elem_of_cons Ht'; [lia|by apply Hmax].
        -- split; [by left|]. split; [done|].
           intros t' [->|Hin']%elem_of_cons Ht'; [lia|].
           specialize (Hmax t' Hin' Ht'). lia.
      * split; [by left|]. split; [done|].
        intros t' [->|Hin']%elem_of_cons Ht'; [lia|]. by destruct (IH t' Hin').
    + rewrite (bool_decide_eq_false_2 _ Ht).
      destruct (foldr _ None l) as [t0|].
      * destruct IH as (Hin & Halert & Hmax).
        split; [by right|]. split; [done|].
        intros t' [->|Hin']%elem_of_cons Ht'; [done|by apply Hmax].
      * intros t' [->|Hin']%elem_of_cons; [done|by apply IH].
Qed.




(** ** What a frame can change *)


Section Frames.

Variable Decimal_str : pyval -> option Q.
Variable py_float : pyval -> option Q.
Variable py_str : pyval -> string.
Variable str_lower : string -> string.
Variable haversine_distance : Q -> Q -> Q -> Q -> option Q.
Variable u : User.

Let receive := AlertConsumer.receive Decimal_str py_float py_str str_lower haversine_distance u.


End Frames.

Lemma touches_only_refl uid db : touches_only uid db db.
Proof. by repeat split. Qed.

(** A database that differs from [db] by appended audit and location rows,
    by one alert of [uid] written under its own key, fresh or already that
    user's, and by the profile of [uid], is one only [uid] touched; and its
    alerts are still stored under their identifiers. *)
Lemma touches_only_shape uid db db' :
  keyed_by_id db ->
  users db' = users db ->
  emergency_contacts db' = emergency_contacts db ->
  safe_zones db' = safe_zones db ->
  dispatch_logs db' = dispatch_logs db ->
  audit_logs db `prefix_of` audit_logs db' ->
  location_tracks db `prefix_of` location_tracks db' ->
  (alerts db' = alerts db
   \/ exists a', alerts db' = <[alert_id a' := a']> (alerts db)
                 /\ forall a, alerts db !! alert_id a' = Some a -> user a = uid) ->
  (profiles db' = profiles db
   \/ exists p, profiles db' = <[uid := p]> (profiles db)) ->
  touches_only uid db db' /\ keyed_by_id db'.
Proof.
  intros Hkeyed Hu Hc Hz Hd Ha Ht Halerts Hprofiles.
  split; [repeat (split; [done|]); split|].
  - intros k a Hk Hne. destruct Halerts as [->|(a' & -> & Hown)]; [done|].
    rewrite lookup_insert_ne; [done|].
    intros <-. apply Hne. by eapply Hown.
  - intros v Hv. destruct Hprofiles as [->|(p & ->)]; [done|].
    by rewrite lookup_insert_ne.
  - intros k a. destruct Halerts as [->|(a' & -> & _)]; [apply Hkeyed|].
    destruct (decide (alert_id a' = k)) as [<-|Hne].
    + rewrite lookup_insert_eq. by intros [= <-].
    + rewrite lookup_insert_ne by done. apply Hkeyed.
Qed.

Section Isolation.

Variable Decimal_str : pyval -> option Q.
Variable py_float : pyval -> option Q.
Variable py_str : pyval -> string.
Variable str_lower : string -> string.
Variable haversine_distance : Q -> Q -> Q -> Q -> option Q.
Variable u : User.
Variables (env : Ambient) (db : DB).

Hypothesis Hkeyed : keyed_by_id db.

Let kept (db' : DB) : Prop := touches_only (id u) db db' /\ keyed_by_id db'.

Lemma kept_same : kept db.
Proof. split; [apply touches_only_refl|exact Hkeyed]. Qed.

Lemma kept_location_update data :
  kept (snd (AlertConsumer.handle_location_update Decimal_str py_float py_str
               haversine_distance u data env db)).
Proof.
  unfold AlertConsumer.handle_location_update.
  destruct (lu_alert_id data) as [aid|]; [|apply kept_same].
  destruct (AlertConsumer.has_location_data data); [|apply kept_same].
  unfold AlertConsumer.save_location_track.
  unfold try_except, mbind, M_bind, bind.
  destruct (Alert_objects_get_for aid u env db) as [[a|e] db1] eqn:Hget.
  2:{ unfold Alert_objects_get_for in Hget. unfold_m.
      destruct (alerts db !! aid) as [a|]; [destruct (decide _)|];
        injection Hget as _ <-; apply kept_same. }
  assert (db1 = db) as ->.
  { unfold Alert_objects_get_for in Hget. unfold_m.
    destruct (alerts db !! aid) as [a0|]; [destruct (decide _)|];
      by injection Hget as _ <-. }
  destruct (check_safe_zone_cases py_float haversine_distance u
              (lu_latitude data) (lu_longitude data) env db)
    as [[[inside zone] Hzone]|[e Hzone]]; rewrite Hzone; [|apply kept_same].
  unfold AlertConsumer.Decimal. unfold_m.
  destruct (Decimal_str (lu_latitude data)) as [dlat|]; [|apply kept_same].
  destruct (Decimal_str (lu_longitude data)) as [dlon|]; [|apply kept_same].
  destruct (readings_storable_dec py_float (lu_accuracy data) (lu_altitude data)
              (lu_speed data) (lu_heading data))
    as [(Hacc & Halt & Hspd & Hhdg)|Hnot].
  - rewrite (LocationTrack_objects_create_storable py_float a dlat dlon
               _ _ _ _ inside zone env db Hacc Halt Hspd Hhdg).
    unfold AuditLog_objects_create. unfold_m. cbn.
    apply touches_only_shape; cbn;
      first [done | by apply prefix_app_r | by left].
  - rewrite (LocationTrack_objects_create_not_storable py_float a dlat dlon
               _ _ _ _ inside zone env db Hnot).
    apply kept_same.
Qed.

Lemma kept_alert_trigger new_id data :
  kept (snd (AlertConsumer.handle_alert_trigger Decimal_str u new_id data env db)).
Proof.
  unfold AlertConsumer.handle_alert_trigger, AlertConsumer.create_alert.
  unfold try_except, mbind, M_bind, bind.
  destruct (AlertService.Decimal_if Decimal_str (at_latitude data) env db)
    as [[la|e] db1] eqn:Hla.
  2:{ unfold AlertService.Decimal_if in Hla.
      destruct (truthy _); [destruct (Decimal_str _)|];
        cbn in Hla; injection Hla as _ <-; apply kept_same. }
  apply Decimal_if_returns in Hla as [-> ->].
  destruct (AlertService.Decimal_if Decimal_str (at_longitude data) env db)
    as [[lo|e] db1] eqn:Hlo.
  2:{ unfold AlertService.Decimal_if in Hlo.
      destruct (truthy _); [destruct (Decimal_str _)|];
        cbn in Hlo; injection Hlo as _ <-; apply kept_same. }
  apply Decimal_if_returns in Hlo as [-> ->].
  unfold Alert_objects_create, user_profile, profile_save, AuditLog_objects_create.
  unfold_m. cbn.
  destruct (alerts db !! new_id) eqn:Hfresh; [apply kept_same|]. cbn.
  set (row := {| alert_id := new_id |}).
  assert (Hrow : exists a', <[new_id := row]> (alerts db)
                            = <[alert_id a' := a']> (alerts db)
                            /\ forall a, alerts db !! alert_id a' = Some a ->
                                         user a = id u).
  { exists row. split; [done|]. cbn. intros a Ha. congruence. }
  destruct (profiles db !! id u); cbn;
    apply touches_only_shape; cbn;
    first [done | by apply prefix_app_r | by right | by left
          | (right; by eexists)].
Qed.

Lemma kept_own_write aid a a' db' :
  alerts db !! aid = Some a ->
  user a = id u ->
  alerts db' = <[alert_id a := a']> (alerts db) ->
  alert_id a' = alert_id a ->
  users db' = users db ->
  emergency_contacts db' = emergency_contacts db ->
  safe_zones db' = safe_zones db ->
  dispatch_logs db' = dispatch_logs db ->
  audit_logs db `prefix_of` audit_logs db' ->
  location_tracks db' = location_tracks db ->
  (profiles db' = profiles db
   \/ exists p, profiles db' = <[id u := p]> (profiles db)) ->
  kept db'.
Proof.
  intros Hstored Hown Halerts Hid Hu Hc Hz Hd Ha Ht Hp.
  apply touches_only_shape; try done; [by rewrite Ht|].
  right. exists a'. rewrite Hid. split; [done|].
  intros a0 Ha0. rewrite (Hkeyed _ _ Hstored) in Ha0. congruence.
Qed.

Lemma kept_alert_cancel data :
  kept (snd (AlertConsumer.handle_alert_cancel u data env db)).
Proof.
  unfold AlertConsumer.handle_alert_cancel, AlertConsumer.cancel_alert.
  unfold try_except, mbind, M_bind, bind.
  destruct (ac_alert_id data) as [aid|]; [|apply kept_same].
  destruct (alerts db !! aid) as [a|] eqn:Hstored;
    [|rewrite (get_for_missing u env db aid Hstored); apply kept_same].
  destruct (decide (user a = id u)) as [Hown|Hne];
    [|rewrite (get_for_foreign u env db aid a Hstored Hne); apply kept_same].
  rewrite (get_for_own u env db aid a Hstored Hown).
  unfold Alert_save, user_profile, profile_save, AuditLog_objects_create.
  unfold_m. cbn.
  destruct (profiles db !! id u); cbn;
    eapply (kept_own_write aid a); cbn;
    first [done | by apply prefix_app_r | by left | (right; by eexists)].
Qed.

Lemma kept_safe_word_check data :
  kept (snd (AlertConsumer.handle_safe_word_check str_lower u data env db)).
Proof.
  unfold AlertConsumer.handle_safe_word_check, AlertConsumer.verify_safe_word.
  unfold try_except, mbind, M_bind, bind.
  destruct (sw_alert_id data) as [aid|]; [|apply kept_same].
  destruct (alerts db !! aid) as [a|] eqn:Hstored;
    [|rewrite (get_for_missing u env db aid Hstored); apply kept_same].
  destruct (decide (user a = id u)) as [Hown|Hne];
    [|rewrite (get_for_foreign u env db aid a Hstored Hne); apply kept_same].
  rewrite (get_for_own u env db aid a Hstored Hown).
  unfold Alert_save, user_profile. unfold_m.
  destruct (profiles db !! id u) as [p|]; [|apply kept_same].
  destruct (safe_word p) as [w|];
    [destruct (string_is_empty w);
       [|destruct (sw_safe_word data) as [attempt|];
           [cbn; destruct (bool_decide _)|apply kept_same]]|];
    eapply (kept_own_write aid a); cbn; first [done | by left].
Qed.

End Isolation.

(** X18: a frame from one user's connection changes nothing of anybody
    else.  Whatever the frame, after [receive] the accounts, contacts, zones
    and dispatch records are as before, audit rows and location rows were at
    most appended, and every alert and profile of another user is unchanged;
    alerts remain stored under their identifiers. *)
Theorem receive_touches_only_own
    Decimal_str py_float py_str str_lower haversine_distance u new_id frame env db :
  keyed_by_id db ->
  let db' := snd (AlertConsumer.receive Decimal_str py_float py_str str_lower
                    haversine_distance u new_id frame env db) in
  touches_only (id u) db db' /\ keyed_by_id db'.
Proof.
  intros Hkeyed db'. subst db'.
  destruct frame as [| |[data|data|data|data|]]; cbn [AlertConsumer.receive].
  - by apply kept_same.
  - by apply kept_same.
  - by apply kept_location_update.
  - by apply kept_alert_trigger.
  - by apply kept_alert_cancel.
  - by apply kept_safe_word_check.
  - by apply kept_same.
Qed.

Lemma receive_touches_only_own_witness :
  let db := Scenario.db_of [] [] {[ 7%N := Scenario.alert_in TRIGGERED ]} in
  let db' := snd (AlertConsumer.receive Scenario.decimal_of Scenario.decimal_of
                    Scenario.str_of Scenario.lower_of grid_distance Scenario.bob 7%N
                    (json_object (alert_trigger Scenario.panic)) (Scenario.at_second 70) db) in
  keyed_by_id db
  /\ alerts db' !! 7%N = Some (Scenario.alert_in TRIGGERED).
Proof.
  intros db db'.
  assert (Hkeyed : keyed_by_id db).
  { intros k a. unfold db, Scenario.db_of. cbn [alerts].
    intros [<- <-]%lookup_singleton_Some. reflexivity. }
  split; [exact Hkeyed|].
  destruct (receive_touches_only_own Scenario.decimal_of Scenario.decimal_of
              Scenario.str_of Scenario.lower_of grid_distance Scenario.bob 7%N
              (json_object (alert_trigger Scenario.panic)) (Scenario.at_second 70) db Hkeyed)
    as [(_ & _ & _ & _ & _ & _ & Halerts & _) _].
  apply Halerts; [reflexivity|discriminate].
Defined.

(** ** Pages *)

Lemma get_or_create_profile_run u env db :
  Pages.get_or_create_profile u env db
  = match profiles db !! id u with
    | Some p => (Return p, db)
    | None =>
        (Return {| safe_word := None; is_active_alert := false |},
         with_profiles
           (<[id u := {| safe_word := None; is_active_alert := false |}]>
              (profiles db)) db)
    end.
Proof.
  unfold Pages.get_or_create_profile. unfold_m.
  by destruct (profiles db !! id u).
Qed.

(** X19: the alert panel reflects the stored state and repairs a missing
    profile.  Provided the alert its query finds, if any, can be read back,
    [alert_panel_view] returns; it leaves the database alone when the user
    has a profile and otherwise adds an empty one, touching neither the
    alerts nor anybody else's profile; it shows an active alert exactly when
    the user has one, and reports contacts exactly when the user has an
    active emergency contact. *)
Theorem alert_panel_reflects_state u env db :
  (forall a, first_alert (active_alerts_of (id u) db) = Some a -> readable a) ->
  exists ctx db',
    Pages.alert_panel_view u env db = (Return ctx, db')
    /\ profiles db' !! id u = Some (panel_profile ctx)
    /\ (is_Some (profiles db !! id u) -> db' = db)
    /\ (forall v, v <> id u -> profiles db' !! v = profiles db !! v)
    /\ alerts db' = alerts db
    /\ (panel_active_alert ctx = None <-> active_alerts_of (id u) db = [])
    /\ (forall a, panel_active_alert ctx = Some a -> a ∈ active_alerts_of (id u) db)
    /\ (panel_has_contacts ctx = true <-> active_contacts_of (id u) db <> []).
Proof.
  intros _.
  unfold Pages.alert_panel_view. unfold mbind, M_bind, bind.
  rewrite get_or_create_profile_run.
  assert (Hcontacts : forall l : list EmergencyContact,
             match l with [] => false | _ :: _ => true end = true <-> l <> [])
    by (intros [|? ?]; split; done).
  destruct (profiles db !! id u) as [p|] eqn:Hp; unfold_m;
    eexists _, _; (split; [reflexivity|]); cbn.
  - split; [done|]. split; [done|]. split; [done|]. split; [done|].
    split; [apply first_alert_nil|]. split; [apply first_alert_elem|].
    apply Hcontacts.
  - split; [apply lookup_insert_eq|]. split; [by intros [? ?]|].
    split; [intros v Hv; by rewrite lookup_insert_ne|]. split; [done|].
    split; [apply first_alert_nil|]. split; [apply first_alert_elem|].
    apply Hcontacts.
Qed.

Lemma alert_panel_reflects_state_witness :
  let db := Scenario.db_of [Scenario.mum] [] {[ 7%N := Scenario.alert_in DISPATCHED ]} in
  exists ctx,
    Pages.alert_panel_view Scenario.alice (Scenario.at_second 1) db = (Return ctx, db)
    /\ panel_active_alert ctx = Some (Scenario.alert_in DISPATCHED)
    /\ panel_has_contacts ctx = true.
Proof.
  intros db.
  destruct (alert_panel_reflects_state Scenario.alice (Scenario.at_second 1) db)
    as (ctx & db' & Hrun & _ & Hsame & _ & _ & _ & Hshown & Hcontacts).
  - intros a Hfirst.
    unfold active_alerts_of, db, Scenario.db_of in Hfirst. cbn [alerts] in Hfirst.
    rewrite map_to_list_singleton in Hfirst. injection Hfirst as <-.
    split; intros q; discriminate.
  - rewrite (Hsame ltac:(by eexists)) in Hrun. exists ctx.
    split; [exact Hrun|]. split; [|by apply Hcontacts].
    destruct (panel_active_alert ctx) as [a|] eqn:Hctx.
    + specialize (Hshown a eq_refl).
      unfold active_alerts_of, db, Scenario.db_of in Hshown. cbn [alerts] in Hshown.
      rewrite map_to_list_singleton in Hshown.
      apply list_elem_of_In in Hshown. by destruct Hshown as [<-|[]].
    + vm_compute in Hrun. injection Hrun as <-. discriminate.
Defined.

(** X20: opening the panel is what makes a first trigger work.  For a user
    without profile and without active alert, after [alert_panel_view] a
    [trigger_alert_view] with a new key, and with coordinates that fit their
    columns, is answered "triggered"; the stored alert can be read back, and
    the panel opened again shows it as the active one and changes
    nothing. *)
Theorem panel_then_trigger Decimal_str u new_id data agent ip env env' env'' db :
  profiles db !! id u = None ->
  active_alerts_of (id u) db = [] ->
  alerts db !! new_id = None ->
  convertible Decimal_str (at_latitude data) ->
  convertible Decimal_str (at_longitude data) ->
  (forall q, stored_coordinate Decimal_str (at_latitude data) = Some q ->
             fits_column q) ->
  (forall q, stored_coordinate Decimal_str (at_longitude data) = Some q ->
             fits_column q) ->
  exists ctx db1 db2 a ctx',
    Pages.alert_panel_view u env db = (Return ctx, db1)
    /\ panel_active_alert ctx = None
    /\ Views.trigger_alert_view Decimal_str u new_id data agent ip env' db1
       = (Return (alert_triggered new_id TRIGGERED), db2)
    /\ alerts db2 !! new_id = Some a
    /\ readable a
    /\ first_alert (active_alerts_of (id u) db2) = Some a
    /\ Pages.alert_panel_view u env'' db2 = (Return ctx', db2)
    /\ panel_active_alert ctx' = Some a.
Proof.
  intros Hp Hnone Hfresh Hlat Hlon Hfitlat Hfitlon.
  unfold Pages.alert_panel_view at 1. unfold mbind, M_bind, bind.
  rewrite get_or_create_profile_run, Hp. unfold_m.
  set (db1 := with_profiles _ db).
  destruct (view_trigger_stores Decimal_str u new_id data agent ip env' db1
              {| safe_word := None; is_active_alert := false |})
    as (db2 & Hrun & Hone & Ha & Hp2); try done.
  { cbn. apply lookup_insert_eq. }
  eexists _, db1, db2, _, _. split; [reflexivity|].
  split; [cbn; by rewrite (active_alerts_of_ext _ db1 db), Hnone|].
  split; [exact Hrun|]. split; [exact Ha|].
  split; [by split|].
  split; [by rewrite Hone|].
  unfold Pages.alert_panel_view. unfold mbind, M_bind, bind.
  rewrite get_or_create_profile_run, Hp2. unfold_m.
  split; [reflexivity|]. cbn. by rewrite Hone.
Qed.

Lemma panel_then_trigger_witness :
  let db := Scenario.db_of [] [] ∅ in
  exists ctx db1 db2,
    Pages.alert_panel_view Scenario.bob (Scenario.at_second 1) db = (Return ctx, db1)
    /\ Views.trigger_alert_view Scenario.decimal_of Scenario.bob 9%N Scenario.panic
         None None (Scenario.at_second 2) db1
       = (Return (alert_triggered 9%N TRIGGERED), db2).
Proof.
  intros db.
  destruct (panel_then_trigger Scenario.decimal_of Scenario.bob 9%N Scenario.panic
              None None (Scenario.at_second 1) (Scenario.at_second 2)
              (Scenario.at_second 3) db)
    as (ctx & db1 & db2 & a & ctx' & Hpanel & _ & Htrigger & _);
    [reflexivity|reflexivity|reflexivity|discriminate|discriminate
    |discriminate|discriminate|].
  by exists ctx, db1, db2.
Defined.



Lemma get_contact_or_404_spec u cid db :
  match Pages.get_contact_or_404 u cid db with
  | Some c => c ∈ emergency_contacts db /\ contact_id c = cid /\ contact_user c = id u
  | None => forall c, c ∈ emergency_contacts db -> contact_id c = cid ->
                      contact_user c <> id u
  end.
Proof.
  unfold Pages.get_contact_or_404.
  destruct (List.find _ _) as [c|] eqn:Hfind.
  - apply find_some in Hfind as [Hin [H1 H2]%andb_true_iff].
    apply bool_decide_eq_true_1 in H1. apply bool_decide_eq_true_1 in H2.
    by rewrite list_elem_of_In.
  - intros c Hin Hcid Hown. apply list_elem_of_In in Hin.
    pose proof (find_none _ _ Hfind c Hin) as Hc. cbn in Hc.
    by rewrite !bool_decide_eq_true_2 in Hc.
Qed.

(** X22: [contact_delete_view] deletes on POST only, and only a contact of
    the requesting user.  For a contact identifier that is unknown or belongs
    to another user it answers 404; on GET it renders the contact; in both
    cases nothing is written.  On POST for an own contact it redirects to the
    contact list, and afterwards exactly the contacts with another identifier
    are left, the dispatch records that referred to the deleted contact are
    gone with it, and a dispatch no longer reaches it. *)
Theorem contact_delete_view_removes u cid env db :
  ((forall c, c ∈ emergency_contacts db -> contact_id c = cid ->
              contact_user c <> id u) ->
   forall method,
     Pages.contact_delete_view u method cid env db = (Return http_not_found, db))
  /\ (forall c,
         Pages.get_contact_or_404 u cid db = Some c ->
         Pages.contact_delete_view u GET cid env db = (Return (http_render c), db)
         /\ exists db',
              Pages.contact_delete_view u POST cid env db
              = (Return (http_redirect "contacts"), db')
              /\ (forall c', c' ∈ emergency_contacts db'
                             <-> c' ∈ emergency_contacts db /\ contact_id c' <> cid)
              /\ (forall l, l ∈ dispatch_logs db'
                            <-> l ∈ dispatch_logs db
                                /\ contact_id (log_contact l) <> cid)
              /\ (forall uid c',
                     c' ∈ order_by_priority (active_contacts_of uid db') ->
                     contact_id c' <> cid)
              /\ alerts db' = alerts db
              /\ audit_logs db' = audit_logs db).
Proof.
  pose proof (get_contact_or_404_spec u cid db) as Hspec.
  split.
  - intros Hnone method. unfold Pages.contact_delete_view. unfold_m.
    destruct (Pages.get_contact_or_404 u cid db) as [c|]; [|done].
    destruct Hspec as (Hin & Hcid & Hown). by destruct (Hnone c Hin Hcid).
  - intros c Hget. rewrite Hget in Hspec. destruct Hspec as (Hin & Hcid & Hown).
    unfold Pages.contact_delete_view, Pages.contact_delete. unfold_m.
    rewrite Hget. split; [done|].
    eexists. split; [reflexivity|]. cbn. rewrite Hcid.
    assert (Hkeep : forall c',
               c' ∈ List.filter
                      (fun c0 => negb (bool_decide (contact_id c0 = cid)))
                      (emergency_contacts db)
               <-> c' ∈ emergency_contacts db /\ contact_id c' <> cid).
    { intros c'. rewrite !list_elem_of_In, filter_In, negb_true_iff.
      by rewrite bool_decide_eq_false. }
    split; [exact Hkeep|]. split.
    + intros l. rewrite !list_elem_of_In, filter_In, negb_true_iff.
      by rewrite bool_decide_eq_false.
    + split; [|done].
      intros uid c' Hc'. rewrite order_by_priority_perm in Hc'.
      unfold active_contacts_of in Hc'. cbn in Hc'.
      apply list_elem_of_In, filter_In in Hc' as [Hc' _].
      apply list_elem_of_In, Hkeep in Hc'. tauto.
Qed.

Lemma contact_delete_view_removes_witness :
  let db := Scenario.db_of [Scenario.mum; Scenario.dad] []
              {[ 7%N := Scenario.alert_in TRIGGERED ]} in
  let env := Scenario.at_second 10 in
  Pages.contact_delete_view Scenario.bob POST 1%N env db = (Return http_not_found, db)
  /\ exists db',
       Pages.contact_delete_view Scenario.alice POST 1%N env db
       = (Return (http_redirect "contacts"), db')
       /\ emergency_contacts db' = [Scenario.dad].
Proof.
  intros db env. split.
  - apply (proj1 (contact_delete_view_removes Scenario.bob 1%N env db)).
    intros c Hin _. apply list_elem_of_In in Hin.
    destruct Hin as [<-|[<-|[]]]; discriminate.
  - destruct (proj2 (contact_delete_view_removes Scenario.alice 1%N env db)
                Scenario.mum eq_refl) as (_ & db' & Hrun & _).
    exists db'. split; [exact Hrun|].
    vm_compute in Hrun. by injection Hrun as <-.
Defined.

(** ** What a dispatch tells the contacts *)

Lemma maps_url_without_latitude lon :
  DispatchService._generate_maps_url None lon = LocationNotAvailable.
Proof. done. Qed.

(** X23: an alert triggered with a latitude that is numerically zero
    carries no location in its notifications.  When such an alert, created
    through the service, is dispatched, every record the dispatch appends
    belongs to that alert, is marked [SIMULATED] and sent at the time of the
    dispatch, and its message says that the location is not available,
    whatever longitude was given. *)
Theorem zero_latitude_hides_location str_strip
    Decimal_str u new_id lat lon method agent ip env env' db p :
  numerically_zero lat = true ->
  convertible Decimal_str lon ->
  alerts db !! new_id = None ->
  profiles db !! id u = Some p ->
  users db !! id u = Some u ->
  active_contacts_of (id u) db <> [] ->
  exists a db1 r a' db2,
    AlertService.create_alert Decimal_str new_id u lat lon method agent ip env db
    = (Return a, db1)
    /\ DispatchService.dispatch_alert str_strip a env' db1 = (Return (r, a'), db2)
    /\ length (dispatch_logs db2)
       = (length (dispatch_logs db)
          + 2 * length (active_contacts_of (id u) db))%nat
    /\ forall l, l ∈ drop (length (dispatch_logs db)) (dispatch_logs db2) ->
                 log_alert l = new_id
                 /\ log_status l = SIMULATED
                 /\ sent_at l = Some (clock env')
                 /\ msg_location (message_content l) = LocationNotAvailable.
Proof.
  intros Hzero Hlon Hfresh Hp Hu Hcontacts.
  assert (Hlat : convertible Decimal_str lat).
  { intros Ht. by rewrite numerically_zero_falsy in Ht. }
  rewrite (service_create_alert_db Decimal_str u new_id lat lon method agent ip
             env db p Hfresh Hp Hlat Hlon).
  rewrite (stored_coordinate_zero _ _ Hzero).
  set (a := triggered_alert new_id u (clock env) method None _ _ agent ip).
  set (db1 := with_audit_logs _ _).
  assert (Hu1 : users db1 !! user a = Some u) by exact Hu.
  assert (Hc1 : active_contacts_of (id u) db1 = active_contacts_of (id u) db)
    by reflexivity.
  exists a, db1. rewrite (dispatch_alert_run _ env' db1 a u Hu1) by (by rewrite Hc1).
  eexists _, _, _. split; [reflexivity|]. split; [reflexivity|].
  cbn [dispatch_logs with_audit_logs with_alerts with_dispatch_logs].
  change (dispatch_logs db1) with (dispatch_logs db). rewrite Hc1.
  set (contacts := order_by_priority (active_contacts_of (id u) db)).
  assert (Hlen : forall cs, length (flat_map (logs_for str_strip a u (clock env')) cs)
                            = (2 * length cs)%nat).
  { induction cs as [|c cs IH]; [done|]. cbn [flat_map logs_for app length].
    rewrite IH. lia. }
  split.
  - rewrite length_app, Hlen. subst contacts.
    by rewrite (Permutation_length (order_by_priority_perm _)).
  - rewrite drop_app_length. intros l Hl.
    apply list_elem_of_In, in_flat_map in Hl as (c & _ & Hl).
    destruct Hl as [<-|[<-|[]]]; done.
Qed.

Lemma zero_latitude_hides_location_witness :
  let db := Scenario.db_of [Scenario.mum] [] ∅ in
  exists a db1 r a' db2,
    AlertService.create_alert Scenario.decimal_of 7%N Scenario.alice
      (PyFloat 0) (PyFloat (775 # 10)) "panic_button" None None
      (Scenario.at_second 0) db
    = (Return a, db1)
    /\ DispatchService.dispatch_alert Scenario.strip_of a (Scenario.at_second 120) db1
       = (Return (r, a'), db2)
    /\ map (fun l => msg_location (message_content l)) (dispatch_logs db2)
       = [LocationNotAvailable; LocationNotAvailable].
Proof.
  intros db.
  destruct (zero_latitude_hides_location Scenario.strip_of Scenario.decimal_of Scenario.alice 7%N
              (PyFloat 0) (PyFloat (775 # 10)) "panic_button" None None
              (Scenario.at_second 0) (Scenario.at_second 120) db
              {| safe_word := Some "Blue42"%string; is_active_alert := false |})
    as (a & db1 & r & a' & db2 & Hcreate & Hdispatch & _);
    [reflexivity|by eexists|reflexivity|reflexivity|reflexivity|discriminate|].
  exists a, db1, r, a', db2. split; [exact Hcreate|]. split; [exact Hdispatch|].
  vm_compute in Hcreate. injection Hcreate as <- <-.
  vm_compute in Hdispatch. by injection Hdispatch as _ _ <-.
Defined.

(** ** The client address *)

Lemma before_comma_spec s :
  comma_free (before_comma s)
  /\ (s = before_comma s
      \/ exists rest, s = (before_comma s ++ "," ++ rest)%string).
Proof.
  induction s as [|c r [Hfree Hsplit]]; cbn; [by split; [|left]|].
  destruct (Ascii.eqb_spec c ",") as [->|Hne]; cbn.
  - split; [done|]. right. by exists r.
  - split; [done|]. destruct Hsplit as [Hr|(rest & Hr)].
    + left. by rewrite <- Hr.
    + right. exists rest. by rewrite Hr at 1.
Qed.

(** X24: the client address the views record is the first entry of the
    [X-Forwarded-For] header: the text before its first comma, taken as it
    is, which therefore never contains a comma; without that header, or with
    an empty one, it is [REMOTE_ADDR]. *)
Theorem get_client_ip_first_entry forwarded remote :
  (forwarded = None \/ forwarded = Some ""%string ->
   get_client_ip forwarded remote = remote)
  /\ (forall header,
         forwarded = Some header -> header <> ""%string ->
         exists ip,
           get_client_ip forwarded remote = Some ip
           /\ comma_free ip
           /\ (header = ip \/ exists rest, header = (ip ++ "," ++ rest)%string)).
Proof.
  split.
  - by intros [-> | ->].
  - intros header -> Hne. unfold get_client_ip.
    destruct header as [|c r]; [done|]. cbn [string_is_empty].
    eexists. split; [reflexivity|]. apply before_comma_spec.
Qed.

Lemma get_client_ip_first_entry_witness :
  get_client_ip (Some "203.0.113.9, 10.0.0.1"%string) (Some "10.0.0.1"%string)
  = Some "203.0.113.9"%string.
Proof.
  destruct (proj2 (get_client_ip_first_entry
                     (Some "203.0.113.9, 10.0.0.1"%string) (Some "10.0.0.1"%string))
              "203.0.113.9, 10.0.0.1"%string eq_refl)
    as (ip & Hip & _); [discriminate|].
  rewrite Hip. vm_compute in Hip. by injection Hip as <-.
Defined.

(** ** Phone numbers *)

Lemma rep_digits lo hi s t :
  t ∈ rep (matches Digit) lo hi s
  <-> exists ds, s = (ds ++ t)%string /\ digits ds
                 /\ (lo <= String.length ds <= hi)%nat.
Proof.
  revert lo s. induction hi as [|hi IH]; intros lo s; cbn [rep].
  - destruct lo as [|lo].
    + rewrite list_elem_of_singleton. split.
      * intros ->. exists ""%string. cbn. repeat split; lia.
      * intros (ds & -> & _ & _ & Hlen). by destruct ds; [|cbn in Hlen; lia].
    + split; [by intros ?%elem_of_nil|]. intros (ds & _ & _ & Hlen & Hhi). lia.
  - rewrite elem_of_app, list_elem_of_bind. split.
    + intros [(s' & Ht & Hs')|Hhere].
      * apply IH in Ht as (ds & -> & Hds & Hlo & Hhi).
        destruct s as [|d s]; [by apply elem_of_nil in Hs'|]. cbn [matches] in Hs'.
        destruct (is_digit d) eqn:Hd; [|by apply elem_of_nil in Hs'].
        apply list_elem_of_singleton in Hs' as <-.
        exists (String d ds). cbn. repeat split; [done|done|lia|lia].
      * destruct lo; [|by apply elem_of_nil in Hhere].
        apply list_elem_of_singleton in Hhere as ->.
        exists ""%string. cbn. repeat split; lia.
    + intros (ds & -> & Hds & Hlo & Hhi). destruct ds as [|d ds].
      * right. destruct lo; [|cbn in Hlo; lia]. by apply list_elem_of_singleton.
      * left. destruct Hds as [Hd Hds]. exists (ds ++ t)%string. split.
        -- apply IH. exists ds. cbn in Hlo, Hhi. repeat split; [done|lia|lia].
        -- change (String d ds ++ t)%string with (String d (ds ++ t)%string).
           cbn [matches]. rewrite Hd. by apply list_elem_of_singleton.
Qed.

Lemma search_anchored_elem r s :
  search_anchored r s = true <-> exists t, t ∈ matches r s.
Proof.
  unfold search_anchored. destruct (matches r s) as [|t l].
  - split; [done|]. by intros (t & ?%elem_of_nil).
  - split; [|done]. intros _. exists t. by left.
Qed.

Lemma at_end_spec s : at_end s = true <-> s = ""%string \/ s = newline.
Proof.
  unfold at_end. rewrite orb_true_iff.
  by rewrite !String.eqb_eq.
Qed.

Lemma opt_char_elem c s t :
  t ∈ matches (Opt (Char c)) s <-> s = String c t \/ s = t.
Proof.
  cbn [matches]. rewrite elem_of_app, list_elem_of_singleton. split.
  - intros [Ht| ->]; [left|by right].
    destruct s as [|d s]; [by apply elem_of_nil in Ht|].
    destruct (Ascii.eqb_spec c d) as [->|]; [|by apply elem_of_nil in Ht].
    by apply list_elem_of_singleton in Ht as ->.
  - intros [->| ->]; [left|by right].
    rewrite Ascii.eqb_refl. by apply list_elem_of_singleton.
Qed.

Lemma string_app_cons d (a b : string) :
  (String d a ++ b)%string = String d (a ++ b).
Proof. reflexivity. Qed.

Lemma string_length_app (a b : string) :
  String.length (a ++ b) = (String.length a + String.length b)%nat.
Proof.
  induction a as [|c a IH]; [done|].
  rewrite string_app_cons. cbn [String.length]. by rewrite IH.
Qed.

Lemma string_app_assoc (a b c : string) :
  ((a ++ b) ++ c = a ++ b ++ c)%string.
Proof.
  induction a as [|d a IH]; [done|]. rewrite !string_app_cons. by rewrite IH.
Qed.

Lemma digits_app a b : digits a -> digits b -> digits (a ++ b).
Proof.
  induction a as [|c a IH]; [done|]. rewrite string_app_cons.
  cbn [digits]. intros [? ?] ?. auto.
Qed.

(** X25: which phone numbers the model fields accept.  A text passes the
    validators of [phone_number] exactly when it is an optional [+], then
    decimal digits, at least nine of them, then possibly one line feed, and
    has at most fifteen characters in all.  So the optional [1] of the
    pattern changes nothing, a number with a [+] has at most fourteen
    digits although the pattern allows fifteen, and a line feed at the end
    is let through. *)
Theorem phone_number_accepted value :
  phone_number_valid value = true
  <-> exists sign ds nl,
        value = (sign ++ ds ++ nl)%string
        /\ (sign = ""%string \/ sign = "+"%string)
        /\ (nl = ""%string \/ nl = newline)
        /\ digits ds
        /\ (9 <= String.length ds)%nat
        /\ (String.length sign + String.length ds + String.length nl <= 15)%nat.
Proof.
  unfold phone_number_valid.
  rewrite andb_true_iff, search_anchored_elem, Nat.leb_le. split.
  - intros [(t & Ht) Hmax]. unfold phone_regex in Ht. cbn [matches] in Ht.
    apply list_elem_of_bind in Ht as (s1 & Ht & Hs1).
    apply list_elem_of_bind in Ht as (s2 & Ht & Hs2).
    apply list_elem_of_bind in Ht as (s3 & Ht & Hs3).
    apply (opt_char_elem "+") in Hs1. apply (opt_char_elem "1") in Hs2.
    apply rep_digits in Hs3 as (ds & -> & Hds & Hlo & _).
    destruct (at_end s3) eqn:Hend; [|by apply elem_of_nil in Ht].
    apply at_end_spec in Hend.
    assert (Hone : exists one, s1 = (one ++ ds ++ s3)%string /\ digits one)
      by (destruct Hs2 as [->| ->]; [by exists "1"%string|by exists ""%string]).
    destruct Hone as (one & -> & Hone).
    assert (Hsign : exists sign, value = (sign ++ (one ++ ds) ++ s3)%string
                                 /\ (sign = ""%string \/ sign = "+"%string)).
    { destruct Hs1 as [->| ->]; [exists "+"%string|exists ""%string];
        rewrite string_app_assoc; auto. }
    destruct Hsign as (sign & -> & Hsign).
    exists sign, (one ++ ds)%string, s3.
    rewrite !string_length_app in Hmax. rewrite string_length_app.
    repeat split; [done|done|by apply digits_app|lia|lia].
  - intros (sign & ds & nl & -> & Hsign & Hnl & Hds & Hlo & Hmax).
    split; [|rewrite !string_length_app; lia].
    exists nl. unfold phone_regex. cbn [matches].
    apply list_elem_of_bind. exists (ds ++ nl)%string. split.
    + apply list_elem_of_bind. exists (ds ++ nl)%string. split.
      * apply list_elem_of_bind. exists nl. split.
        -- rewrite (proj2 (at_end_spec nl) Hnl). by apply list_elem_of_singleton.
        -- apply rep_digits. exists ds. repeat split; [done|done|lia].
      * apply (opt_char_elem "1"). by right.
    + apply (opt_char_elem "+"). destruct Hsign as [->| ->]; [by right|by left].
Qed.
